(** * Quarantine sprite decoder (imagexcel_decode.c): model and properties

    The program reads a 256-colour palette from an .IMG file and the sprites
    of an .SPR archive, and writes one plain-text pixmap (P3) per sprite.

    The C code is embedded as functions that pass an explicit [world] (the
    file system, the table of open descriptors, the open stdio streams and
    the two console streams).  What the code cannot decide is given by an
    environment [env] of oracles: whether an allocation, the opening of an
    output file or a formatted write succeeds. *)

From Stdlib Require Import ZArith Lia List.
From Stdlib Require Import Strings.Ascii Strings.String Strings.Byte DecimalString.
From stdpp Require Import gmap strings list fin_maps.

(** ** Bytes, machine integers and text *)

(** The value of a [uint8_t]. *)
Definition byte_val (x : byte) : Z := Z.of_N (Byte.to_N x).

(** Unsigned arithmetic of a given width wraps around. *)
Definition wrap (bits x : Z) : Z := (x mod 2 ^ bits)%Z.

(** [uint16_t], and [uint_fast16_t], which is [unsigned long] (64 bits) on the
    platform the program was written for: it is printed with [%lu]. *)
Definition uint16 (x : Z) : Z := wrap 16 x.
Definition uint_fast16 (x : Z) : Z := wrap 64 x.

(** The line feed character, and the bytes of a text. *)
Definition nl : string := String "010"%char "".
Definition bytes_of (s : string) : list byte := list_byte_of_string s.

(** [%d]: the decimal digits of an [int], with a sign when negative. *)
Definition fmt_d (n : Z) : string := NilZero.string_of_int (Z.to_int n).

Fixpoint zeros (k : nat) : string :=
  match k with
  | O => ""
  | S k' => String "0"%char (zeros k')
  end.

Definition zero_pad (width : nat) (s : string) : string :=
  zeros (width - String.length s) +:+ s.

(** [%03d]: at least three characters, padded with zeros after the sign. *)
Definition fmt_03d (n : Z) : string :=
  if (n <? 0)%Z then "-" +:+ zero_pad 2 (fmt_d (- n)) else zero_pad 3 (fmt_d n).

(** The first [k] characters of a text. *)
Fixpoint string_take (k : nat) (s : string) : string :=
  match k, s with
  | S k', String c s' => String c (string_take k' s')
  | _, _ => ""
  end.

(** [snprintf(buf, size, ...)] stores at most [size - 1] characters of the
    formatted text (and the terminator); [text] is the formatted text. *)
Definition snprintf (size : nat) (text : string) : string :=
  string_take (size - 1) text.

(** ** Constants of the source *)

Definition MODEX_PLANES : nat := 4.
Definition PALETTE_DATA_OFFSET : Z := 13.
Definition PALETTE_SIZE_COLORS : nat := 256.
Definition PALETTE_SIZE_BYTES : Z := 768.
Definition MAX_FILENAME_LEN : nat := 32.

(** ** Data *)

Record width_height_pair := WH { width : byte; height : byte }.
Record palette_entry := RGB { r : byte; g : byte; b : byte }.

(** An array of structures seen through a pointer to raw bytes, as the casts
    of the source do: the structures have no padding. *)
Definition wh_at (raw : list byte) (i : nat) : width_height_pair :=
  WH (nth (2 * i) raw x00) (nth (2 * i + 1) raw x00).

Definition pal_at (raw : list byte) (i : nat) : palette_entry :=
  RGB (nth (3 * i) raw x00) (nth (3 * i + 1) raw x00) (nth (3 * i + 2) raw x00).

(** [(palette_entry* )palette_data] in [main]: 256 entries. *)
Definition cast_palette (raw : list byte) : list palette_entry :=
  map (pal_at raw) (seq 0 PALETTE_SIZE_COLORS).

(** ** The world *)

Record world := World {
  files   : gmap string (list byte);   (* regular files, by path *)
  fdt     : gmap Z (string * nat);     (* open descriptors: path and offset *)
  streams : list string;               (* open stdio streams, by path *)
  out     : list string;               (* what was printed on stdout *)
  err     : list string                (* what was printed on stderr *)
}.

Definition set_files (f : gmap string (list byte)) (w : world) : world :=
  World f (fdt w) (streams w) (out w) (err w).
Definition set_fdt (t : gmap Z (string * nat)) (w : world) : world :=
  World (files w) t (streams w) (out w) (err w).
Definition set_streams (s : list string) (w : world) : world :=
  World (files w) (fdt w) s (out w) (err w).

(** [printf] and [fprintf(stderr, ...)]. *)
Definition printf (text : string) (w : world) : world :=
  World (files w) (fdt w) (streams w) (out w ++ [text]) (err w).
Definition eprintf (text : string) (w : world) : world :=
  World (files w) (fdt w) (streams w) (out w) (err w ++ [text]).

(** What the code cannot decide. *)
Record env := Env {
  fd_limit   : nat;                     (* descriptors are 0 .. fd_limit-1 *)
  malloc_ok  : world -> Z -> bool;      (* does malloc(size) return a block *)
  fopen_ok   : world -> string -> bool; (* can the path be opened for writing *)
  fprintf_ok : world -> string -> bool  (* does the next write to it succeed *)
}.

(** The environment in which nothing fails. *)
Definition nominal (E : env) : Prop :=
  (forall w n, malloc_ok E w n = true) /\
  (forall w p, fopen_ok E w p = true) /\
  (forall w p, fprintf_ok E w p = true).

(** ** System calls on regular files *)

(** The lowest descriptor that is not open. *)
Definition lowest_free (limit : nat) (t : gmap Z (string * nat)) : option nat :=
  find (fun n => bool_decide (t !! Z.of_nat n = None)) (seq 0 limit).

(** [open(path, O_RDONLY)]: -1 when the file does not exist or no descriptor
    is left. *)
Definition sys_open (E : env) (path : string) (w : world) : Z * world :=
  match files w !! path with
  | None => ((-1)%Z, w)
  | Some _ =>
      match lowest_free (fd_limit E) (fdt w) with
      | None => ((-1)%Z, w)
      | Some n => (Z.of_nat n, set_fdt (<[Z.of_nat n := (path, 0)]> (fdt w)) w)
      end
  end.

(** [lseek(fd, offset, SEEK_SET)]: a regular file can be positioned anywhere,
    also past its end. *)
Definition sys_lseek (fd offset : Z) (w : world) : Z * world :=
  match fdt w !! fd with
  | None => ((-1)%Z, w)
  | Some (path, _) =>
      if (offset <? 0)%Z then ((-1)%Z, w)
      else (offset, set_fdt (<[fd := (path, Z.to_nat offset)]> (fdt w)) w)
  end.

(** [read(fd, buf, count)]: the bytes from the offset, at most [count] of
    them, and their number; the offset moves past them. *)
Definition sys_read (fd count : Z) (w : world) : Z * list byte * world :=
  match fdt w !! fd with
  | None => ((-1)%Z, [], w)
  | Some (path, off) =>
      match files w !! path with
      | None => ((-1)%Z, [], w)
      | Some data =>
          let got := take (Z.to_nat count) (drop off data) in
          (Z.of_nat (length got), got,
           set_fdt (<[fd := (path, off + length got)]> (fdt w)) w)
      end
  end.

(** What [read] leaves in the buffer it was given. *)
Definition fill (buf got : list byte) : list byte :=
  got ++ drop (length got) buf.

Definition sys_close (fd : Z) (w : world) : world :=
  set_fdt (delete fd (fdt w)) w.

(** [malloc(size)]: a block of [size] bytes, or the null pointer. *)
Definition malloc (E : env) (w : world) (size : Z) : option (list byte) :=
  if malloc_ok E w size then Some (replicate (Z.to_nat size) x00) else None.

(** ** stdio streams *)

(** A [FILE*] is the path it writes to; the null pointer is [None]. *)
Definition fopen_w (E : env) (path : string) (w : world)
  : option string * world :=
  if fopen_ok E w path
  then (Some path,
        set_streams (path :: streams w) (set_files (<[path := []]> (files w)) w))
  else (None, w).

(** [fprintf(stream, ...)] of the formatted [text]: the number of characters
    written, or a negative number and nothing written. *)
Definition fprintf (E : env) (stream : string) (text : string) (w : world)
  : Z * world :=
  if fprintf_ok E w stream
  then (Z.of_nat (String.length text),
        set_files (<[stream := default [] (files w !! stream) ++ bytes_of text]>
                     (files w)) w)
  else ((-1)%Z, w).

Fixpoint remove_first (p : string) (l : list string) : list string :=
  match l with
  | [] => []
  | q :: l' => if decide (p = q) then l' else q :: remove_first p l'
  end.

Definition fclose (stream : string) (w : world) : world :=
  set_streams (remove_first stream (streams w)) w.

(** ** linearize_planar_data *)

(** The inner loop: plane [modex_plane], from pixel [pixel_index] on, with
    [todo] pixels left.  The indices are below [pixelcount], so they do not
    wrap.  An access outside a buffer is undefined in C: [None]. *)
Fixpoint linearize_plane (todo modex_plane pixels_per_plane pixel_index : nat)
    (planar_data linear_data : list byte) : option (list byte) :=
  match todo with
  | O => Some linear_data
  | S todo' =>
      let planar_index := modex_plane * pixels_per_plane + pixel_index in
      let linear_index := MODEX_PLANES * pixel_index + modex_plane in
      match planar_data !! planar_index with
      | Some x =>
          if decide (linear_index < length linear_data)
          then linearize_plane todo' modex_plane pixels_per_plane (S pixel_index)
                 planar_data (<[linear_index := x]> linear_data)
          else None
      | None => None
      end
  end.

(** The outer loop: [todo] planes left, from plane [modex_plane] on. *)
Fixpoint linearize_planes (todo modex_plane pixels_per_plane : nat)
    (planar_data linear_data : list byte) : option (list byte) :=
  match todo with
  | O => Some linear_data
  | S todo' =>
      match linearize_plane pixels_per_plane modex_plane pixels_per_plane 0
              planar_data linear_data with
      | Some linear_data' =>
          linearize_planes todo' (S modex_plane) pixels_per_plane
            planar_data linear_data'
      | None => None
      end
  end.

Definition linearize_planar_data (planar_data linear_data : list byte)
    (pixelcount : nat) : option (list byte) :=
  let pixels_per_plane := Nat.div pixelcount MODEX_PLANES in
  linearize_planes MODEX_PLANES 0 pixels_per_plane planar_data linear_data.

(** ** read_palette *)

Definition msg_open (filename : string) : string :=
  "Error: failed to open '" +:+ filename +:+ "'." +:+ nl.
Definition msg_palette_read (filename : string) : string :=
  "Error: unable to read 768 bytes from offset 0x0D in '" +:+ filename
  +:+ "'." +:+ nl.
Definition msg_palette_seek (filename : string) : string :=
  "Error: unable to seek to offset 0x0D in '" +:+ filename +:+ "'." +:+ nl.

(** The result is the status, the buffer [palette_data] as the call leaves
    it, and the world. *)
Definition read_palette (E : env) (filename : string) (palette_data : list byte)
    (w : world) : bool * list byte * world :=
  let '(fd, w) := sys_open E filename w in
  if (0 <? fd)%Z then
    let '(pos, w) := sys_lseek fd PALETTE_DATA_OFFSET w in
    let '(status, palette_data, w) :=
      if (pos =? PALETTE_DATA_OFFSET)%Z then
        let '(n, got, w) := sys_read fd PALETTE_SIZE_BYTES w in
        let palette_data := fill palette_data got in
        if (n =? PALETTE_SIZE_BYTES)%Z then (true, palette_data, w)
        else (false, palette_data, eprintf (msg_palette_read filename) w)
      else (false, palette_data, eprintf (msg_palette_seek filename) w) in
    (status, palette_data, sys_close fd w)
  else (false, palette_data, eprintf (msg_open filename) w).

(** ** write_ppm *)

Definition msg_ppm_open (filename : string) : string :=
  "Error: unable to open '" +:+ filename +:+ "' for writing." +:+ nl.

(** The name [write_ppm] builds in its buffer of [MAX_FILENAME_LEN] bytes. *)
Definition ppm_name (filename_base : string) (sprite_index : Z) : string :=
  snprintf (MAX_FILENAME_LEN - 1)
    (filename_base +:+ "_" +:+ fmt_03d sprite_index +:+ ".ppm").

Definition ppm_header (width height : byte) : string :=
  "P3" +:+ nl +:+ fmt_d (byte_val width) +:+ " " +:+ fmt_d (byte_val height)
  +:+ nl +:+ "255".

Definition ppm_triplet (e : palette_entry) : string :=
  fmt_03d (byte_val (r e)) +:+ " " +:+ fmt_03d (byte_val (g e)) +:+ " "
  +:+ fmt_03d (byte_val (b e)) +:+ "   ".

(** The pixel loop, from [pixel_index] on, with [todo] pixels left.  The
    results of [fprintf] are dropped, as in the source. *)
Fixpoint ppm_pixels (E : env) (todo : nat) (pixel_index : Z) (fd : string)
    (palette : list palette_entry) (data : list byte) (w : world) : world :=
  match todo with
  | O => w
  | S todo' =>
      let w := if (pixel_index mod 4 =? 0)%Z then snd (fprintf E fd nl w) else w in
      let pal_index := nth (Z.to_nat pixel_index) data x00 in
      let e := nth (Z.to_nat (byte_val pal_index)) palette (RGB x00 x00 x00) in
      let w := snd (fprintf E fd (ppm_triplet e) w) in
      ppm_pixels E todo' (pixel_index + 1)%Z fd palette data w
  end.

Definition write_ppm (E : env) (filename_base : string) (sprite_index : Z)
    (palette : list palette_entry) (data : list byte) (width height : byte)
    (w : world) : bool * world :=
  let filename := ppm_name filename_base sprite_index in
  let '(fd, w) := fopen_w E filename w in
  let pixel_count := uint_fast16 (byte_val width * byte_val height) in
  match fd with
  | Some fd =>
      let w := snd (fprintf E fd (ppm_header width height) w) in
      let w := ppm_pixels E (Z.to_nat pixel_count) 0 fd palette data w in
      let w := fclose fd w in
      (true, w)
  | None => (false, eprintf (msg_ppm_open filename) w)
  end.

(** ** decode_spr *)

Definition msg_pixel_read (pixel_count : Z) (filename : string) : string :=
  "Error: failed to read " +:+ fmt_d pixel_count +:+ " bytes of pixel data from '"
  +:+ filename +:+ "'." +:+ nl.
Definition msg_pixel_alloc (pixel_count sprite_index : Z) : string :=
  "Error: failed to allocate " +:+ fmt_d pixel_count
  +:+ " bytes for sprite at index " +:+ fmt_d sprite_index +:+ ".".
Definition msg_header_read (header_size : Z) (filename : string) : string :=
  "Error: failed to read " +:+ fmt_d header_size +:+ " bytes of header data from '"
  +:+ filename +:+ "'." +:+ nl.
Definition msg_header_alloc (header_size : Z) : string :=
  "Error: failed to allocate " +:+ fmt_d header_size
  +:+ " bytes to buffer header data." +:+ nl.
Definition msg_count_read (filename : string) : string :=
  "Error: failed to read sprite count field in header of '" +:+ filename
  +:+ "'" +:+ nl.

Definition nonzero (x : byte) : bool := negb (byte_val x =? 0)%Z.

(** The body of the loop over the sprites, for the sprite [sprite_index]. *)
Definition sprite_body (E : env) (fd : Z) (filename : string)
    (pal_data : list palette_entry) (width_height_data : list byte)
    (sprite_index : Z) (status : bool) (w : world) : bool * world :=
  let e := wh_at width_height_data (Z.to_nat sprite_index) in
  if nonzero (width e) && nonzero (height e) then
    let pixel_count := uint_fast16 (byte_val (width e) * byte_val (height e)) in
    match malloc E w pixel_count with
    | Some pixel_data =>
        let '(n, got, w) := sys_read fd pixel_count w in
        let pixel_data := fill pixel_data got in
        if (n =? pixel_count)%Z then
          let '(ok, w) :=
            write_ppm E filename sprite_index pal_data pixel_data
              (width e) (height e) w in
          (if ok then status else false, w)
        else (false, eprintf (msg_pixel_read pixel_count filename) w)
    | None => (false, eprintf (msg_pixel_alloc pixel_count sprite_index) w)
    end
  else (status, w).

(** The loop over the sprites, from [sprite_index] on, with [todo] sprites
    left: [sprite_index] stays below [num_sprites], a byte. *)
Fixpoint sprite_loop (E : env) (todo : nat) (fd : Z) (filename : string)
    (pal_data : list palette_entry) (width_height_data : list byte)
    (sprite_index : Z) (status : bool) (w : world) : bool * world :=
  match todo with
  | O => (status, w)
  | S todo' =>
      let '(status, w) :=
        sprite_body E fd filename pal_data width_height_data sprite_index
          status w in
      sprite_loop E todo' fd filename pal_data width_height_data
        (sprite_index + 1)%Z status w
  end.

Definition decode_spr (E : env) (filename : string)
    (pal_data : list palette_entry) (w : world) : bool * world :=
  let '(fd, w) := sys_open E filename w in
  if (0 <? fd)%Z then
    let '(n, got, w) := sys_read fd 1 w in
    if (n =? 1)%Z then
      let num_sprites := byte_val (nth 0 got x00) in
      let w := printf ("Number of sprites in file: " +:+ fmt_d num_sprites +:+ nl) w in
      let header_size := uint16 (num_sprites * 2) in
      match malloc E w header_size with
      | Some width_height_data =>
          let '(n, got, w) := sys_read fd header_size w in
          let width_height_data := fill width_height_data got in
          if (n =? header_size)%Z then
            sprite_loop E (Z.to_nat num_sprites) fd filename pal_data
              width_height_data 0 true w
          else (false, eprintf (msg_header_read header_size filename) w)
      | None => (false, eprintf (msg_header_alloc header_size) w)
      end
    else (false, eprintf (msg_count_read filename) w)
  else (false, eprintf (msg_open filename) w).

(** ** main *)

Definition main (E : env) (argv : list string) (w : world) : Z * world :=
  match argv with
  | _ :: palette_file :: spr_file :: _ =>
      let palette_data := replicate (Z.to_nat PALETTE_SIZE_BYTES) x00 in
      let w := printf ("Reading palette from " +:+ palette_file
                       +:+ " and sprites from " +:+ spr_file +:+ "..." +:+ nl) w in
      let '(ok, palette_data, w) := read_palette E palette_file palette_data w in
      if ok then
        let '(ok, w) := decode_spr E spr_file (cast_palette palette_data) w in
        ((if ok then 0 else -2)%Z, w)
      else ((-1)%Z, w)
  | _ =>
      (0%Z, printf ("Usage: " +:+ nth 0 argv "" +:+ " <palette_file> <spr_file>"
                    +:+ nl) w)
  end.

(** * Vocabulary of the properties *)

(** The number a text of decimal digits stands for. *)
Fixpoint digits_value (acc : nat) (s : string) : nat :=
  match s with
  | EmptyString => acc
  | String c s' => digits_value (10 * acc + (nat_of_ascii c - 48)) s'
  end.

(** The name of an output file before it is cut to the buffer. *)
Definition ppm_full_name (filename_base : string) (sprite_index : Z) : string :=
  filename_base +:+ "_" +:+ fmt_03d sprite_index +:+ ".ppm".

(** [touches p w w']: from [w] to [w'] nothing changed but the contents of the
    file [p] and what was printed on stderr, which only grew. *)
Definition touches (p : string) (w w' : world) : Prop :=
  fdt w' = fdt w /\ streams w' = streams w /\ out w' = out w /\
  (exists more, err w' = err w ++ more) /\
  (forall q, q <> p -> files w' !! q = files w !! q).

(** The colour a pixel stands for. *)
Definition color_of (palette : list palette_entry) (p : byte) : palette_entry :=
  nth (Z.to_nat (byte_val p)) palette (RGB x00 x00 x00).

(** The text of a row-major list of colours, the first of which is pixel
    number [k]: a line feed before every pixel whose number is a multiple of
    four, then the three channels of the pixel. *)
Fixpoint triplets_text (k : Z) (colors : list palette_entry) : string :=
  match colors with
  | [] => ""
  | e :: rest =>
      (if (k mod 4 =? 0)%Z then nl else "") +:+ ppm_triplet e
      +:+ triplets_text (k + 1) rest
  end.

(** The pixmap of a sprite: the header, then its pixels in order, each mapped
    through the palette. *)
Definition ppm_text (palette : list palette_entry) (pixels : list byte)
    (width height : byte) : string :=
  ppm_header width height
  +:+ triplets_text 0 (map (color_of palette) pixels).

(** A sprite of an archive: its directory entry and its pixel payload. *)
Record sprite := Sprite {
  s_width : byte; s_height : byte; s_pixels : list byte }.

Definition s_empty (s : sprite) : bool :=
  negb (nonzero (s_width s) && nonzero (s_height s)).

(** The payload has width * height bytes (none for an empty entry). *)
Definition sprite_ok (s : sprite) : Prop :=
  length (s_pixels s) = Z.to_nat (byte_val (s_width s) * byte_val (s_height s)).

Definition directory (l : list sprite) : list byte :=
  flat_map (fun s => [s_width s; s_height s]) l.

Definition payloads (l : list sprite) : list byte :=
  flat_map s_pixels l.

(** The archive: the count, the directory and the payloads, concatenated. *)
Definition archive (count : byte) (l : list sprite) : list byte :=
  count :: directory l ++ payloads l.

(** The count and the emptiness of the sprite [i] of a directory, as
    [sprite_body] computes them. *)
Definition entry_count (width_height_data : list byte) (i : nat) : Z :=
  uint_fast16 (byte_val (width (wh_at width_height_data i))
               * byte_val (height (wh_at width_height_data i))).

Definition entry_nonempty (width_height_data : list byte) (i : nat) : bool :=
  nonzero (width (wh_at width_height_data i))
  && nonzero (height (wh_at width_height_data i)).

(** The payload bytes of the sprites before sprite [k]: those of the entries
    that are not empty. *)
Fixpoint payload_before (width_height_data : list byte) (k : nat) : nat :=
  match k with
  | O => 0
  | S k' =>
      payload_before width_height_data k'
      + (if entry_nonempty width_height_data k'
         then Z.to_nat (entry_count width_height_data k') else 0)
  end.

(** The state in which [decode_spr] enters its loop over the sprites, when it
    gets there: the descriptor, the sprite count, the directory and the
    world.  It is the prelude of [decode_spr], see [decode_spr_loop]. *)
Definition loop_entry (E : env) (filename : string) (w : world)
  : option (Z * Z * list byte * world) :=
  let '(fd, w) := sys_open E filename w in
  if (0 <? fd)%Z then
    let '(n, got, w) := sys_read fd 1 w in
    if (n =? 1)%Z then
      let num_sprites := byte_val (nth 0 got x00) in
      let w := printf ("Number of sprites in file: " +:+ fmt_d num_sprites +:+ nl) w in
      let header_size := uint16 (num_sprites * 2) in
      match malloc E w header_size with
      | Some width_height_data =>
          let '(n, got, w) := sys_read fd header_size w in
          if (n =? header_size)%Z
          then Some (fd, num_sprites, fill width_height_data got, w)
          else None
      | None => None
      end
    else None
  else None.

(** The payload read of the sprite [i], made in the world [w]. *)
Definition payload_read (fd : Z) (width_height_data : list byte) (i : nat)
    (w : world) : Z * list byte * world :=
  sys_read fd (entry_count width_height_data i) w.

(** In the world [w] the sprite [i] has pixels, its buffer is allocated, and
    the read of its payload comes back short. *)
Definition read_short (E : env) (fd : Z) (width_height_data : list byte)
    (i : nat) (w : world) : Prop :=
  entry_nonempty width_height_data i = true /\
  malloc_ok E w (entry_count width_height_data i) = true /\
  (payload_read fd width_height_data i w).1.1 <> entry_count width_height_data i.

(** In the world [w] the buffer of the sprite [i] is allocated, the read of
    its payload comes back in full, and its output file opens.  This is all
    that a turn of the loop checks: [write_ppm] returns the outcome of
    [fopen], whatever becomes of its formatted writes. *)
Definition sprite_opened (E : env) (fd : Z) (filename : string)
    (width_height_data : list byte) (i : nat) (w : world) : Prop :=
  malloc_ok E w (entry_count width_height_data i) = true /\
  (payload_read fd width_height_data i w).1.1 = entry_count width_height_data i /\
  fopen_ok E (payload_read fd width_height_data i w).2
    (ppm_name filename (Z.of_nat i)) = true.

(** ** An example environment and example worlds *)

(** Nothing fails, and 16 descriptors can be open. *)
Definition E_ok : env :=
  Env 16 (fun _ _ => true) (fun _ _ => true) (fun _ _ => true).

(** The descriptors 0, 1 and 2 are open on the terminal. *)
Definition console : gmap Z (string * nat) :=
  <[0%Z := ("/dev/tty", 0)]> (<[1%Z := ("/dev/tty", 0)]> (<[2%Z := ("/dev/tty", 0)]> ∅)).

(** A world with one file. *)
Definition world_with (path : string) (data : list byte) : world :=
  World (<[path := data]> ∅) console [] [] [].

(** The palette in which colour [i] is the grey ([i], [i], [i]). *)
Definition gray_palette : list palette_entry :=
  map (fun n => let x := default x00 (Byte.of_nat n) in RGB x x x) (seq 0 256).

(** An archive of two sprites of one pixel each, under a name of 27
    characters. *)
Definition long_name : string := "quarantine/sprites/city.spr".
Definition two_sprites : list sprite :=
  [Sprite x01 x01 [x01]; Sprite x01 x01 [x02]].

(** ** Vocabulary of the further properties *)

(** The raw bytes of a table of colours: red, green, blue of each entry. *)
Definition palette_bytes (entries : list palette_entry) : list byte :=
  flat_map (fun e => [r e; g e; b e]) entries.

(** An environment in which only the opening of the output [denied] fails. *)
Definition E_deny (denied : string) : env :=
  Env 16 (fun _ _ => true) (fun _ p => negb (String.eqb p denied))
    (fun _ _ => true).

(** An environment in which every output opens and every formatted write
    fails, as on a full disk. *)
Definition E_nowrite : env :=
  Env 16 (fun _ _ => true) (fun _ _ => true) (fun _ _ => false).

(** A world with two files. *)
Definition world_with_two (p1 : string) (d1 : list byte) (p2 : string)
    (d2 : list byte) : world :=
  World (<[p1 := d1]> (<[p2 := d2]> ∅)) console [] [] [].

(** A palette file: 13 bytes of header, then the grey palette. *)
Definition gray_img : list byte :=
  replicate 13 x00 ++ palette_bytes gray_palette.

(** * Properties *)

(** The proofs below unfold these by hand. *)
Arguments ppm_name : simpl never.
Arguments ppm_header : simpl never.
Arguments ppm_triplet : simpl never.
Arguments uint_fast16 : simpl never.
Arguments uint16 : simpl never.
Arguments byte_val : simpl never.
Arguments fmt_d : simpl never.
Arguments fmt_03d : simpl never.
Arguments nl : simpl never.
Arguments bytes_of : simpl never.
Arguments entry_count : simpl never.
Arguments entry_nonempty : simpl never.

(** ** Bytes and text *)

Lemma byte_val_range (x : byte) : (0 <= byte_val x < 256)%Z.
Proof.
  unfold byte_val. pose proof (Byte.to_N_bounded x). lia.
Qed.

Lemma uint_fast16_product (x y : byte) :
  uint_fast16 (byte_val x * byte_val y) = (byte_val x * byte_val y)%Z.
Proof.
  pose proof (byte_val_range x). pose proof (byte_val_range y).
  unfold uint_fast16, wrap. apply Z.mod_small. nia.
Qed.

Lemma uint16_header (x : byte) : uint16 (byte_val x * 2) = (byte_val x * 2)%Z.
Proof.
  pose proof (byte_val_range x). unfold uint16, wrap.
  apply Z.mod_small. change (2 ^ 16)%Z with 65536%Z. lia.
Qed.

Lemma nonzero_false (x : byte) : nonzero x = false <-> byte_val x = 0%Z.
Proof.
  unfold nonzero. destruct (Z.eqb_spec (byte_val x) 0); simpl; split; congruence.
Qed.

Lemma nonzero_true (x : byte) : nonzero x = true <-> byte_val x <> 0%Z.
Proof.
  unfold nonzero. destruct (Z.eqb_spec (byte_val x) 0); simpl; split; congruence.
Qed.

Lemma string_app_cons (c : ascii) (s t : string) :
  String c s +:+ t = String c (s +:+ t).
Proof. reflexivity. Qed.

Lemma string_app_nil_l (t : string) : "" +:+ t = t.
Proof. reflexivity. Qed.

Lemma string_app_nil_r (s : string) : s +:+ "" = s.
Proof.
  induction s as [|c s IH]; [done|]. by rewrite string_app_cons, IH.
Qed.

Lemma string_app_assoc (s t u : string) : (s +:+ t) +:+ u = s +:+ (t +:+ u).
Proof.
  induction s as [|c s IH]; [done|]. by rewrite !string_app_cons, IH.
Qed.

Lemma string_length_app (s t : string) :
  String.length (s +:+ t) = String.length s + String.length t.
Proof.
  induction s as [|c s IH]; [done|]. rewrite string_app_cons. cbn.
  by rewrite IH.
Qed.

Lemma bytes_of_app (s t : string) : bytes_of (s +:+ t) = bytes_of s ++ bytes_of t.
Proof.
  unfold bytes_of, list_byte_of_string.
  induction s as [|c s IH]; [done|]. rewrite string_app_cons. cbn.
  by rewrite IH.
Qed.

Lemma string_take_all (k : nat) (s : string) :
  String.length s <= k -> string_take k s = s.
Proof.
  revert k. induction s as [|c s IH]; intros [|k] Hk; cbn in *; try done; try lia.
  rewrite IH; [done|lia].
Qed.

Lemma string_take_app (k : nat) (s t : string) :
  String.length s <= k ->
  string_take k (s +:+ t) = s +:+ string_take (k - String.length s) t.
Proof.
  revert k. induction s as [|c s IH]; intros k Hk; cbn in *.
  - by rewrite string_app_nil_l, Nat.sub_0_r.
  - destruct k as [|k]; [lia|]. rewrite !string_app_cons. cbn.
    rewrite IH; [done|lia].
Qed.

Lemma string_take_length (k : nat) (s : string) :
  String.length (string_take k s) = Nat.min k (String.length s).
Proof.
  revert k. induction s as [|c s IH]; intros [|k]; cbn; try done.
  by rewrite IH.
Qed.

(** Two texts of one length, each followed by a text, are equal only when
    their parts are. *)
Lemma string_app_inj_length (s1 s2 t1 t2 : string) :
  String.length s1 = String.length s2 ->
  s1 +:+ t1 = s2 +:+ t2 -> s1 = s2 /\ t1 = t2.
Proof.
  revert s2. induction s1 as [|c s1 IH]; intros [|d s2] Hl Heq; cbn in *;
    try done.
  rewrite !string_app_cons in Heq.
  injection Heq as -> Heq. destruct (IH s2) as [-> ->]; [lia|done|done].
Qed.

Lemma fmt_03d_table :
  forallb (fun n => (String.length (fmt_03d (Z.of_nat n)) =? 3)
                    && (digits_value 0 (fmt_03d (Z.of_nat n)) =? n))
    (seq 0 256) = true.
Proof. by vm_compute. Qed.

Lemma fmt_03d_byte (n : Z) :
  (0 <= n < 256)%Z ->
  String.length (fmt_03d n) = 3 /\ Z.of_nat (digits_value 0 (fmt_03d n)) = n.
Proof.
  intros Hn. pose proof fmt_03d_table as Ht.
  rewrite forallb_forall in Ht.
  assert (Hin : In (Z.to_nat n) (seq 0 256)) by (apply in_seq; lia).
  apply Ht in Hin. rewrite Z2Nat.id in Hin by lia.
  apply andb_prop in Hin as [H1 H2].
  apply Nat.eqb_eq in H1, H2. split; [done|]. rewrite H2. lia.
Qed.

Lemma fmt_03d_inj (i j : Z) :
  (0 <= i < 256)%Z -> (0 <= j < 256)%Z -> fmt_03d i = fmt_03d j -> i = j.
Proof.
  intros Hi Hj Heq.
  destruct (fmt_03d_byte i Hi) as [_ <-], (fmt_03d_byte j Hj) as [_ <-].
  by rewrite Heq.
Qed.

(** ** The names of the output files *)

Lemma ppm_name_take (base : string) (i : Z) :
  ppm_name base i = string_take 30 (ppm_full_name base i).
Proof. done. Qed.

Lemma ppm_full_name_length (base : string) (i : Z) :
  (0 <= i < 256)%Z ->
  String.length (ppm_full_name base i) = String.length base + 8.
Proof.
  intros Hi. unfold ppm_full_name. rewrite !string_length_app.
  destruct (fmt_03d_byte i Hi) as [-> _]. cbn. lia.
Qed.

Lemma ppm_name_length (base : string) (i : Z) :
  (0 <= i < 256)%Z ->
  String.length (ppm_name base i) = Nat.min 30 (String.length base + 8).
Proof.
  intros Hi. by rewrite ppm_name_take, string_take_length, ppm_full_name_length.
Qed.

(** A base name of any length but 30 differs from the names built on it. *)
Lemma ppm_name_ne_base (base : string) (i : Z) :
  (0 <= i < 256)%Z -> String.length base <> 30 -> ppm_name base i <> base.
Proof.
  intros Hi Hl Heq. apply (f_equal String.length) in Heq.
  rewrite ppm_name_length in Heq by done. lia.
Qed.

(** On a base name of at most 26 characters the three digits are kept, and
    different sprites get different names. *)
Lemma ppm_name_inj (base : string) (i j : Z) :
  String.length base <= 26 -> (0 <= i < 256)%Z -> (0 <= j < 256)%Z ->
  ppm_name base i = ppm_name base j -> i = j.
Proof.
  intros Hl Hi Hj. rewrite !ppm_name_take. unfold ppm_full_name.
  destruct (fmt_03d_byte i Hi) as [Li _], (fmt_03d_byte j Hj) as [Lj _].
  rewrite !(string_take_app _ base) by lia.
  intros Heq%String.app_inj. revert Heq.
  rewrite !(string_take_app _ "_") by (cbn; lia).
  intros Heq%String.app_inj. revert Heq.
  rewrite !(string_take_app _ (fmt_03d _)) by (cbn; lia).
  rewrite Li, Lj. intros [Heq _]%string_app_inj_length; [|lia].
  by apply fmt_03d_inj.
Qed.

(** ** System calls *)

Lemma lowest_free_None (limit : nat) (t : gmap Z (string * nat)) (n : nat) :
  lowest_free limit t = Some n -> t !! Z.of_nat n = None.
Proof.
  unfold lowest_free. intros [_ H]%find_some.
  by apply bool_decide_eq_true in H.
Qed.

(** An [open] that returns a descriptor: the file exists, the descriptor was
    free, and it now stands at the start of the file. *)
Lemma sys_open_inv (E : env) (path : string) (w : world) :
  (0 <= (sys_open E path w).1)%Z ->
  is_Some (files w !! path) /\
  fdt w !! (sys_open E path w).1 = None /\
  (sys_open E path w).2
  = set_fdt (<[(sys_open E path w).1 := (path, 0)]> (fdt w)) w.
Proof.
  unfold sys_open. destruct (files w !! path) as [data|] eqn:Hf; cbn; [|lia].
  destruct (lowest_free _ _) as [n|] eqn:Hn; cbn; [|lia].
  intros _. split; [by eexists|]. split; [|done].
  by apply lowest_free_None in Hn.
Qed.

Lemma sys_read_at (fd count : Z) (w : world) (path : string) (off : nat)
    (data : list byte) :
  fdt w !! fd = Some (path, off) -> files w !! path = Some data ->
  sys_read fd count w
  = (Z.of_nat (length (take (Z.to_nat count) (drop off data))),
     take (Z.to_nat count) (drop off data),
     set_fdt (<[fd := (path, off + length (take (Z.to_nat count) (drop off data)))]>
                (fdt w)) w).
Proof. intros Hfd Hf. unfold sys_read. by rewrite Hfd, Hf. Qed.

(** A read that found all the bytes it asked for. *)
Lemma sys_read_full (fd count : Z) (w : world) (path : string) (off : nat)
    (data : list byte) :
  fdt w !! fd = Some (path, off) -> files w !! path = Some data ->
  (0 <= count)%Z -> off + Z.to_nat count <= length data ->
  sys_read fd count w
  = (count, take (Z.to_nat count) (drop off data),
     set_fdt (<[fd := (path, off + Z.to_nat count)]> (fdt w)) w).
Proof.
  intros Hfd Hf Hc Hlen. rewrite (sys_read_at _ _ _ _ _ _ Hfd Hf).
  rewrite length_take, length_drop.
  replace (Z.to_nat count `min` (length data - off)) with (Z.to_nat count) by lia.
  by rewrite Z2Nat.id.
Qed.

Lemma fill_full (n : nat) (got : list byte) :
  length got = n -> fill (replicate n x00) got = got.
Proof.
  intros <-. unfold fill. rewrite drop_ge by (rewrite length_replicate; lia).
  by rewrite app_nil_r.
Qed.

(** ** write_ppm: what it touches *)

Lemma touches_refl (p : string) (w : world) : touches p w w.
Proof.
  repeat split; try done. exists []. by rewrite app_nil_r.
Qed.

Lemma touches_trans (p : string) (w1 w2 w3 : world) :
  touches p w1 w2 -> touches p w2 w3 -> touches p w1 w3.
Proof.
  intros (F1 & S1 & O1 & [m1 E1] & L1) (F2 & S2 & O2 & [m2 E2] & L2).
  repeat split; try congruence.
  - exists (m1 ++ m2). by rewrite E2, E1, app_assoc.
  - intros q Hq. by rewrite L2, L1.
Qed.

Lemma fprintf_touches (E : env) (fd text : string) (w : world) :
  touches fd w (fprintf E fd text w).2.
Proof.
  unfold fprintf. destruct (fprintf_ok E w fd); cbn; [|apply touches_refl].
  repeat split; try done.
  - exists []. by rewrite app_nil_r.
  - intros q Hq. cbn. by rewrite lookup_insert_ne.
Qed.

Lemma ppm_pixels_touches (E : env) (todo : nat) (i : Z) (fd : string)
    (palette : list palette_entry) (data : list byte) (w : world) :
  touches fd w (ppm_pixels E todo i fd palette data w).
Proof.
  revert i w. induction todo as [|todo IH]; intros i w; cbn.
  - apply touches_refl.
  - destruct (i mod 4 =? 0)%Z.
    + eapply touches_trans; [apply fprintf_touches|].
      eapply touches_trans; [apply fprintf_touches|apply IH].
    + eapply touches_trans; [apply fprintf_touches|apply IH].
Qed.

Lemma remove_first_head (p : string) (l : list string) :
  remove_first p (p :: l) = l.
Proof. cbn. by rewrite decide_True. Qed.

(** [write_ppm] succeeds exactly when the output file opens, whatever the
    formatted writes do. *)
Lemma write_ppm_status (E : env) (base : string) (i : Z)
    (palette : list palette_entry) (data : list byte) (wd ht : byte) (w : world) :
  (write_ppm E base i palette data wd ht w).1 = fopen_ok E w (ppm_name base i).
Proof.
  unfold write_ppm, fopen_w. by destruct (fopen_ok E w (ppm_name base i)).
Qed.

Lemma write_ppm_touches (E : env) (base : string) (i : Z)
    (palette : list palette_entry) (data : list byte) (wd ht : byte) (w : world) :
  touches (ppm_name base i) w (write_ppm E base i palette data wd ht w).2.
Proof.
  unfold write_ppm, fopen_w.
  destruct (fopen_ok E w (ppm_name base i)); cbn.
  - set (w1 := set_streams _ _).
    assert (H1 : touches (ppm_name base i) w1
                   (ppm_pixels E (Z.to_nat (uint_fast16 (byte_val wd * byte_val ht)))
                      0 (ppm_name base i) palette data
                      (fprintf E (ppm_name base i) (ppm_header wd ht) w1).2)).
    { eapply touches_trans; [apply fprintf_touches|apply ppm_pixels_touches]. }
    destruct H1 as (F & S & O & [m Hm] & L).
    repeat split; cbn; try done.
    + rewrite S. subst w1. cbn. by rewrite decide_True.
    + exists m. by rewrite Hm.
    + intros q Hq. rewrite L by done. subst w1. cbn. by rewrite lookup_insert_ne.
  - repeat split; try done. by eexists.
Qed.

(** ** write_ppm: the text, when every write succeeds *)

Lemma fprintf_files (E : env) (fd text : string) (w : world) (old : list byte) :
  fprintf_ok E w fd = true -> files w !! fd = Some old ->
  files (fprintf E fd text w).2 !! fd = Some (old ++ bytes_of text).
Proof.
  intros Hok Hold. unfold fprintf. rewrite Hok, Hold. cbn.
  by rewrite lookup_insert_eq.
Qed.

Lemma ppm_pixels_text (E : env) (fd : string) (palette : list palette_entry)
    (data : list byte) :
  (forall w p, fprintf_ok E w p = true) ->
  forall (todo k : nat) (w : world) (old : list byte),
    k + todo <= length data -> files w !! fd = Some old ->
    files (ppm_pixels E todo (Z.of_nat k) fd palette data w) !! fd
    = Some (old ++ bytes_of (triplets_text (Z.of_nat k)
                               (map (color_of palette) (take todo (drop k data))))).
Proof.
  intros Hok. induction todo as [|todo IH]; intros k w old Hlen Hold.
  - cbn. by rewrite app_nil_r.
  - destruct (lookup_lt_is_Some_2 data k) as [x Hx]; [lia|].
    rewrite (drop_S _ _ _ Hx). cbn [take map triplets_text ppm_pixels].
    rewrite Nat2Z.id, (nth_lookup_Some _ _ _ _ Hx).
    replace (Z.of_nat k + 1)%Z with (Z.of_nat (S k)) by lia.
    fold (color_of palette x).
    set (sep := if (Z.of_nat k mod 4 =? 0)%Z then nl else "").
    set (w1 := if (Z.of_nat k mod 4 =? 0)%Z then (fprintf E fd nl w).2 else w).
    assert (H1 : files w1 !! fd = Some (old ++ bytes_of sep)).
    { subst w1 sep. destruct (Z.of_nat k mod 4 =? 0)%Z.
      - by apply fprintf_files.
      - by rewrite app_nil_r. }
    rewrite (IH (S k) _ ((old ++ bytes_of sep)
                          ++ bytes_of (ppm_triplet (color_of palette x)))).
    + by rewrite !bytes_of_app, !app_assoc.
    + lia.
    + by apply fprintf_files.
Qed.

Lemma fprintf_err (E : env) (fd text : string) (w : world) :
  err (fprintf E fd text w).2 = err w.
Proof. unfold fprintf. by destruct (fprintf_ok E w fd). Qed.

Lemma ppm_pixels_err (E : env) (todo : nat) (i : Z) (fd : string)
    (palette : list palette_entry) (data : list byte) (w : world) :
  err (ppm_pixels E todo i fd palette data w) = err w.
Proof.
  revert i w. induction todo as [|todo IH]; intros i w; cbn; [done|].
  rewrite IH, fprintf_err. destruct (i mod 4 =? 0)%Z; [apply fprintf_err|done].
Qed.

(** When the output file opens and every write succeeds, [write_ppm] leaves
    the pixmap of the sprite under the name it built, and nothing else
    changes. *)
Lemma write_ppm_nominal (E : env) (base : string) (i : Z)
    (palette : list palette_entry) (data : list byte) (wd ht : byte) (w : world) :
  (forall w p, fopen_ok E w p = true) ->
  (forall w p, fprintf_ok E w p = true) ->
  length data = Z.to_nat (byte_val wd * byte_val ht) ->
  (write_ppm E base i palette data wd ht w).1 = true /\
  files (write_ppm E base i palette data wd ht w).2 !! ppm_name base i
  = Some (bytes_of (ppm_text palette data wd ht)) /\
  err (write_ppm E base i palette data wd ht w).2 = err w.
Proof.
  intros Hopen Hok Hlen. rewrite write_ppm_status, Hopen. split; [done|].
  unfold write_ppm, fopen_w. rewrite Hopen. cbn.
  rewrite uint_fast16_product, <- Hlen.
  set (w1 := set_streams _ _).
  assert (H1 : files (fprintf E (ppm_name base i) (ppm_header wd ht) w1).2
               !! ppm_name base i = Some ([] ++ bytes_of (ppm_header wd ht))).
  { apply fprintf_files; [done|]. subst w1. cbn. by rewrite lookup_insert_eq. }
  split.
  - change 0%Z with (Z.of_nat 0).
    rewrite (ppm_pixels_text E _ palette data Hok (length data) 0 _ _ ltac:(lia) H1).
    rewrite drop_0, firstn_all. unfold ppm_text. by rewrite bytes_of_app.
  - by rewrite ppm_pixels_err, fprintf_err.
Qed.

(** ** The pixmap as a text *)

Lemma byte_val_inj (x y : byte) : byte_val x = byte_val y -> x = y.
Proof.
  unfold byte_val. intros H%(inj Z.of_N).
  pose proof (Byte.of_to_N x) as Hx. pose proof (Byte.of_to_N y) as Hy.
  rewrite H in Hx. congruence.
Qed.

Lemma ppm_triplet_length (e : palette_entry) : String.length (ppm_triplet e) = 14.
Proof.
  unfold ppm_triplet. rewrite !string_length_app.
  destruct (fmt_03d_byte _ (byte_val_range (r e))) as [-> _].
  destruct (fmt_03d_byte _ (byte_val_range (g e))) as [-> _].
  destruct (fmt_03d_byte _ (byte_val_range (b e))) as [-> _].
  done.
Qed.

Lemma ppm_triplet_inj (e1 e2 : palette_entry) :
  ppm_triplet e1 = ppm_triplet e2 -> e1 = e2.
Proof.
  unfold ppm_triplet. intros H.
  pose proof (fun x => proj1 (fmt_03d_byte _ (byte_val_range x))) as L.
  apply string_app_inj_length in H as [Hr H]; [|by rewrite !L].
  apply (string_app_inj_length " " " ") in H as [_ H]; [|done].
  apply string_app_inj_length in H as [Hg H]; [|by rewrite !L].
  apply (string_app_inj_length " " " ") in H as [_ H]; [|done].
  apply string_app_inj_length in H as [Hb _]; [|by rewrite !L].
  apply fmt_03d_inj, byte_val_inj in Hr, Hg, Hb; try apply byte_val_range.
  destruct e1, e2; cbn in *; congruence.
Qed.

Lemma triplets_text_inj (k : Z) (c1 c2 : list palette_entry) :
  triplets_text k c1 = triplets_text k c2 -> c1 = c2.
Proof.
  revert k c2. induction c1 as [|e1 c1 IH]; intros k [|e2 c2] H; cbn in H.
  - done.
  - apply (f_equal String.length) in H.
    rewrite !string_length_app, ppm_triplet_length in H. cbn in H. lia.
  - apply (f_equal String.length) in H.
    rewrite !string_length_app, ppm_triplet_length in H. cbn in H. lia.
  - apply String.app_inj in H.
    apply string_app_inj_length in H as [He H]; [|by rewrite !ppm_triplet_length].
    apply ppm_triplet_inj in He. apply IH in H. congruence.
Qed.

(** The pixmap determines the colours of the pixels, in order. *)
Lemma ppm_text_inj (palette : list palette_entry) (p1 p2 : list byte) (wd ht : byte) :
  ppm_text palette p1 wd ht = ppm_text palette p2 wd ht ->
  map (color_of palette) p1 = map (color_of palette) p2.
Proof.
  unfold ppm_text. intros H%String.app_inj. by apply triplets_text_inj in H.
Qed.

(** ** linearize_planar_data *)

Section Linearize.
Variables (planar : list byte) (ppp : nat).
Hypothesis planar_size : MODEX_PLANES * ppp <= length planar.

(** One plane: the bytes of the plane land where they should, the other
    positions keep what they held. *)
Lemma linearize_plane_spec (todo k p : nat) (linear : list byte) :
  k < MODEX_PLANES -> p + todo <= ppp -> MODEX_PLANES * ppp <= length linear ->
  exists out,
    linearize_plane todo k ppp p planar linear = Some out /\
    length out = length linear /\
    (forall q, p <= q < p + todo ->
       out !! (MODEX_PLANES * q + k) = planar !! (k * ppp + q)) /\
    (forall j, (forall q, p <= q < p + todo -> j <> MODEX_PLANES * q + k) ->
       out !! j = linear !! j).
Proof.
  unfold MODEX_PLANES in *.
  revert p linear. induction todo as [|todo IH]; intros p linear Hk Hp Hl.
  - exists linear. cbn. repeat split; intros; try done; lia.
  - cbn [linearize_plane]. unfold MODEX_PLANES.
    destruct (lookup_lt_is_Some_2 planar (k * ppp + p)) as [x Hx]; [nia|].
    rewrite Hx, decide_True by lia.
    destruct (IH (S p) (<[4 * p + k := x]> linear)) as (out & Ho & Hlen & Hin & Hout);
      [done|lia|rewrite length_insert; lia|].
    exists out. split; [done|]. rewrite length_insert in Hlen.
    split; [done|]. split.
    + intros q Hq. destruct (decide (q = p)) as [->|Hne].
      * rewrite Hout by (intros; lia).
        rewrite list_lookup_insert_eq by lia. done.
      * apply Hin. lia.
    + intros j Hj. rewrite Hout by (intros; apply Hj; lia).
      apply list_lookup_insert_ne. specialize (Hj p). lia.
Qed.

Lemma linearize_planes_spec (todo k : nat) (linear : list byte) :
  k + todo <= MODEX_PLANES -> MODEX_PLANES * ppp <= length linear ->
  exists out,
    linearize_planes todo k ppp planar linear = Some out /\
    length out = length linear /\
    (forall k' q, k <= k' < k + todo -> q < ppp ->
       out !! (MODEX_PLANES * q + k') = planar !! (k' * ppp + q)) /\
    (forall j, (forall k' q, k <= k' < k + todo -> q < ppp ->
                  j <> MODEX_PLANES * q + k') ->
       out !! j = linear !! j).
Proof.
  revert k linear. induction todo as [|todo IH]; intros k linear Hk Hl.
  - exists linear. cbn. repeat split; intros; try done; lia.
  - cbn [linearize_planes].
    destruct (linearize_plane_spec ppp k 0 linear)
      as (mid & Hm & Hlen & Hin & Hout); [lia|lia|done|].
    rewrite Hm.
    destruct (IH (S k) mid) as (out & Ho & Hlen' & Hin' & Hout');
      [lia|lia|].
    exists out. split; [done|]. split; [congruence|]. split.
    + intros k' q Hk' Hq. destruct (decide (k' = k)) as [->|Hne].
      * rewrite Hout'; [apply Hin; lia|].
        unfold MODEX_PLANES in *. intros; lia.
      * apply Hin'; lia.
    + intros j Hj. rewrite Hout'; [apply Hout|].
      * intros q Hq. apply Hj; lia.
      * intros k' q Hk' Hq. apply Hj; lia.
Qed.
End Linearize.

(** C9: for a pixel count [n] that is a multiple of four and buffers of [n]
    bytes, [linearize_planar_data] returns a linear buffer of [n] bytes in
    which byte [4*p + k] is byte [k*(n/4) + p] of the planar buffer, for every
    plane [k < 4] and pixel [p < n/4]; with [n = 8] the planes A0 A1, B0 B1,
    C0 C1, D0 D1 come out as A0 B0 C0 D0 A1 B1 C1 D1. *)
Theorem linearize_planar_data_correct (planar linear : list byte) (n : nat) :
  n mod 4 = 0 -> length planar = n -> length linear = n ->
  (exists out,
     linearize_planar_data planar linear n = Some out /\
     length out = n /\
     forall k p, k < 4 -> p < n / 4 ->
       out !! (4 * p + k) = planar !! (k * (n / 4) + p)) /\
  (forall A0 A1 B0 B1 C0 C1 D0 D1 : byte,
     n = 8 -> planar = [A0; A1; B0; B1; C0; C1; D0; D1] ->
     linearize_planar_data planar linear n
     = Some [A0; B0; C0; D0; A1; B1; C1; D1]).
Proof.
  intros Hn Hp Hl.
  assert (Hsz : 4 * (n / 4) <= n) by (apply Nat.Div0.mul_div_le).
  split.
  - unfold linearize_planar_data.
    destruct (linearize_planes_spec planar (n / 4) ltac:(unfold MODEX_PLANES; lia)
                4 0 linear) as (out & Ho & Hlen & Hin & _);
      [unfold MODEX_PLANES; lia|unfold MODEX_PLANES; lia|].
    exists out. split; [done|]. split; [congruence|].
    intros k p Hk Hq. apply Hin; lia.
  - intros A0 A1 B0 B1 C0 C1 D0 D1 -> ->.
    do 9 (destruct linear as [|? linear]; try discriminate Hl).
    reflexivity.
Qed.

Lemma linearize_planar_data_correct_witness :
  linearize_planar_data [x0a; x0b; x0c; x0d; x1a; x1b; x1c; x1d]
    (replicate 8 x00) 8
  = Some [x0a; x0c; x1a; x1c; x0b; x0d; x1b; x1d].
Proof.
  destruct (linearize_planar_data_correct
              [x0a; x0b; x0c; x0d; x1a; x1b; x1c; x1d] (replicate 8 x00) 8
              eq_refl eq_refl eq_refl) as [_ H].
  exact (H x0a x0b x0c x0d x1a x1b x1c x1d eq_refl eq_refl).
Defined.

(** ** read_palette *)

(** What [read_palette] does once the palette file is open on a descriptor
    it accepts: it reads from offset 13, closes the descriptor, and succeeds
    exactly when 768 bytes were there. *)
Lemma read_palette_opened (E : env) (filename : string) (buf : list byte)
    (w : world) (data : list byte) :
  files w !! filename = Some data ->
  (0 < (sys_open E filename w).1)%Z ->
  let got := take 768 (drop 13 data) in
  read_palette E filename buf w
  = if (Z.of_nat (length got) =? 768)%Z
    then (true, fill buf got, set_fdt (fdt w) w)
    else (false, fill buf got,
          set_fdt (fdt w) (eprintf (msg_palette_read filename) w)).
Proof.
  intros Hdata Hfd got. unfold read_palette.
  destruct (sys_open_inv E filename w) as (_ & Hfree & Hw); [lia|].
  destruct (sys_open E filename w) as [fd w1]. cbn in Hfd, Hfree, Hw. subst w1.
  rewrite (proj2 (Z.ltb_lt 0 fd) Hfd).
  unfold sys_lseek, PALETTE_DATA_OFFSET, PALETTE_SIZE_BYTES. cbn.
  rewrite lookup_insert_eq. cbn. rewrite insert_insert_eq.
  erewrite sys_read_at; [|cbn; apply lookup_insert_eq|exact Hdata].
  change (Z.to_nat 768) with 768. change (Z.to_nat 13) with 13. subst got.
  destruct (Z.of_nat (length (take 768 (drop 13 data))) =? 768)%Z;
    unfold sys_close, eprintf; cbn;
    by rewrite insert_insert_eq, delete_insert_id.
Qed.

Lemma cast_palette_lookup (raw : list byte) (k : nat) :
  k < 256 -> cast_palette raw !! k = Some (pal_at raw k).
Proof.
  intros Hk. unfold cast_palette, PALETTE_SIZE_COLORS.
  rewrite list_lookup_fmap, lookup_seq_lt by done. done.
Qed.

Lemma nth_take_drop (data : list byte) (off len i : nat) :
  i < len -> nth i (take len (drop off data)) x00 = nth (off + i) data x00.
Proof.
  intros Hi. rewrite !nth_lookup, lookup_take_lt, lookup_drop by done. done.
Qed.

(** C2: a palette file of at least 781 bytes that opens is read with
    success into exactly the bytes 13 to 780 of the file, which are the 256
    entries (R, G, B) in order, and the descriptor is closed; a palette file
    of fewer than 781 bytes makes [read_palette] fail, with the read error
    when the file opened, so success never comes with a table that is only
    partly filled. *)
Theorem read_palette_correct (E : env) (filename : string) (buf : list byte)
    (w : world) (data : list byte) (st : bool) (table : list byte) (w' : world) :
  files w !! filename = Some data ->
  length buf = 768 ->
  read_palette E filename buf w = (st, table, w') ->
  ((0 < (sys_open E filename w).1)%Z -> 781 <= length data ->
     st = true /\
     table = take 768 (drop 13 data) /\
     length (cast_palette table) = 256 /\
     (forall k, k < 256 ->
        cast_palette table !! k
        = Some (RGB (nth (13 + 3 * k) data x00) (nth (13 + 3 * k + 1) data x00)
                    (nth (13 + 3 * k + 2) data x00))) /\
     fdt w' = fdt w /\ err w' = err w) /\
  (length data < 781 ->
     st = false /\
     ((0 < (sys_open E filename w).1)%Z ->
        err w' = err w ++ [msg_palette_read filename] /\ fdt w' = fdt w)) /\
  (st = true -> table = take 768 (drop 13 data) /\ length table = 768).
Proof.
  intros Hdata Hbuf Hres.
  assert (Hgot : length (take 768 (drop 13 data)) = Nat.min 768 (length data - 13))
    by (by rewrite length_take, length_drop).
  destruct (Z.ltb_spec 0 (sys_open E filename w).1) as [Hfd|Hfd].
  - rewrite (read_palette_opened E filename buf w data Hdata Hfd) in Hres.
    cbn zeta in Hres.
    destruct (Z.eqb_spec (Z.of_nat (length (take 768 (drop 13 data)))) 768)
      as [Hfull|Hshort]; injection Hres as <- <- <-.
    + assert (Hfill : fill buf (take 768 (drop 13 data)) = take 768 (drop 13 data)).
      { unfold fill. rewrite (drop_ge buf) by lia. apply app_nil_r. }
      rewrite Hfill. split; [|split; [intros; lia|split; [done|lia]]].
      intros _ Hlen. split; [done|]. split; [done|].
      split; [unfold cast_palette; by rewrite length_map, length_seq|].
      split; [|done].
      intros k Hk. rewrite cast_palette_lookup by done. unfold pal_at.
      rewrite !nth_take_drop by lia. do 3 f_equal; lia.
    + split; [intros _ Hlen; lia|]. split; [|done].
      intros _. split; [done|]. intros _. done.
  - unfold read_palette in Hres.
    destruct (sys_open E filename w) as [fd w1]. cbn in Hfd.
    rewrite (proj2 (Z.ltb_ge 0 fd) Hfd) in Hres. injection Hres as <- <- <-.
    cbn. split; [intros; lia|]. split; [|done].
    intros _. split; [done|intros; lia].
Qed.

Lemma read_palette_correct_witness :
  (read_palette E_ok "q.img" (replicate 768 x00)
     (world_with "q.img" (replicate 781 x2a))).1.1 = true.
Proof.
  refine (proj1 (proj1 (read_palette_correct E_ok "q.img" (replicate 768 x00)
                   (world_with "q.img" (replicate 781 x2a)) (replicate 781 x2a)
                   _ _ _ _ _ _) _ _)).
  - vm_compute; reflexivity.
  - vm_compute; reflexivity.
  - vm_compute; reflexivity.
  - vm_compute; reflexivity.
  - vm_compute. lia.
Defined.

(** ** decode_spr: the loop over the sprites *)

Lemma decode_spr_loop (E : env) (filename : string)
    (pal_data : list palette_entry) (w : world) :
  decode_spr E filename pal_data w
  = match loop_entry E filename w with
    | Some (fd, n, whd, w2) =>
        sprite_loop E (Z.to_nat n) fd filename pal_data whd 0 true w2
    | None => (false, (decode_spr E filename pal_data w).2)
    end.
Proof.
  unfold decode_spr, loop_entry.
  destruct (sys_open E filename w) as [fd w1].
  destruct (0 <? fd)%Z; [|done].
  destruct (sys_read fd 1 w1) as [[n got] w2].
  destruct (n =? 1)%Z; [|done].
  destruct (malloc E _ _) as [whd|]; [|done].
  destruct (sys_read fd _ _) as [[n' got'] w3].
  by destruct (n' =? _)%Z.
Qed.

(** The body of the loop, by cases. *)
Lemma sprite_body_unfold (E : env) (fd : Z) (filename : string)
    (pal_data : list palette_entry) (whd : list byte) (i : nat) (st : bool)
    (w : world) :
  sprite_body E fd filename pal_data whd (Z.of_nat i) st w
  = if entry_nonempty whd i then
      if malloc_ok E w (entry_count whd i) then
        if ((payload_read fd whd i w).1.1 =? entry_count whd i)%Z then
          ((if (write_ppm E filename (Z.of_nat i) pal_data
                  (fill (replicate (Z.to_nat (entry_count whd i)) x00)
                     (payload_read fd whd i w).1.2)
                  (width (wh_at whd i)) (height (wh_at whd i))
                  (payload_read fd whd i w).2).1 then st else false),
           (write_ppm E filename (Z.of_nat i) pal_data
              (fill (replicate (Z.to_nat (entry_count whd i)) x00)
                 (payload_read fd whd i w).1.2)
              (width (wh_at whd i)) (height (wh_at whd i))
              (payload_read fd whd i w).2).2)
        else (false, eprintf (msg_pixel_read (entry_count whd i) filename)
                       (payload_read fd whd i w).2)
      else (false, eprintf (msg_pixel_alloc (entry_count whd i) (Z.of_nat i)) w)
    else (st, w).
Proof.
  unfold sprite_body, entry_nonempty, entry_count, payload_read, malloc.
  rewrite Nat2Z.id.
  destruct (nonzero _ && nonzero _); [|done].
  destruct (malloc_ok E w _); [|done].
  destruct (sys_read fd _ w) as [[n got] w1]. cbn.
  destruct (n =? _)%Z; [|done].
  by destruct (write_ppm _ _ _ _ _ _ _ _) as [ok w2].
Qed.

Lemma sprite_loop_S (E : env) (todo : nat) (fd : Z) (filename : string)
    (pal_data : list palette_entry) (whd : list byte) (i : Z) (st : bool)
    (w : world) :
  sprite_loop E (S todo) fd filename pal_data whd i st w
  = sprite_loop E todo fd filename pal_data whd (i + 1)
      (sprite_body E fd filename pal_data whd i st w).1
      (sprite_body E fd filename pal_data whd i st w).2.
Proof. cbn. by destruct (sprite_body _ _ _ _ _ _ _ _). Qed.

(** Running [a + b] turns of the loop is running [a] turns, then [b]. *)
Lemma sprite_loop_split (E : env) (a b : nat) (fd : Z) (filename : string)
    (pal_data : list palette_entry) (whd : list byte) (i : Z) (st : bool)
    (w : world) :
  sprite_loop E (a + b) fd filename pal_data whd i st w
  = sprite_loop E b fd filename pal_data whd (i + Z.of_nat a)
      (sprite_loop E a fd filename pal_data whd i st w).1
      (sprite_loop E a fd filename pal_data whd i st w).2.
Proof.
  revert i st w. induction a as [|a IH]; intros i st w.
  - cbn. by rewrite Z.add_0_r.
  - change (S a + b) with (S (a + b)). rewrite !sprite_loop_S, IH.
    by replace (i + 1 + Z.of_nat a)%Z with (i + Z.of_nat (S a))%Z by lia.
Qed.

(** The last turn of [S k] turns is the body run after [k] turns. *)
Lemma sprite_loop_last (E : env) (k : nat) (fd : Z) (filename : string)
    (pal_data : list palette_entry) (whd : list byte) (st : bool) (w : world) :
  sprite_loop E (S k) fd filename pal_data whd 0 st w
  = sprite_body E fd filename pal_data whd (Z.of_nat k)
      (sprite_loop E k fd filename pal_data whd 0 st w).1
      (sprite_loop E k fd filename pal_data whd 0 st w).2.
Proof.
  replace (S k) with (k + 1) by lia. rewrite sprite_loop_split.
  cbn. by destruct (sprite_body _ _ _ _ _ _ _ _).
Qed.

(** A failure is never forgotten. *)
Lemma sprite_body_true (E : env) (fd : Z) (filename : string)
    (pal_data : list palette_entry) (whd : list byte) (i : Z) (st : bool)
    (w : world) :
  (sprite_body E fd filename pal_data whd i st w).1 = true -> st = true.
Proof.
  unfold sprite_body. destruct (nonzero _ && nonzero _); [|done].
  destruct (malloc E w _); [|done].
  destruct (sys_read fd _ w) as [[n got] w1].
  destruct (n =? _)%Z; [|done].
  destruct (write_ppm _ _ _ _ _ _ _ _) as [[] w2]; done.
Qed.

Lemma sprite_loop_true (E : env) (todo : nat) (fd : Z) (filename : string)
    (pal_data : list palette_entry) (whd : list byte) (i : Z) (st : bool)
    (w : world) :
  (sprite_loop E todo fd filename pal_data whd i st w).1 = true -> st = true.
Proof.
  revert i st w. induction todo as [|todo IH]; intros i st w; [done|].
  rewrite sprite_loop_S. intros H%IH. by apply sprite_body_true in H.
Qed.

(** What was printed on stderr stays there. *)
Lemma sprite_body_err (E : env) (fd : Z) (filename : string)
    (pal_data : list palette_entry) (whd : list byte) (i : Z) (st : bool)
    (w : world) :
  exists more, err (sprite_body E fd filename pal_data whd i st w).2 = err w ++ more.
Proof.
  unfold sprite_body. destruct (nonzero _ && nonzero _); [|exists []; by rewrite app_nil_r].
  destruct (malloc E w _); [|by eexists].
  assert (Hr : err (sys_read fd (uint_fast16
                 (byte_val (width (wh_at whd (Z.to_nat i)))
                  * byte_val (height (wh_at whd (Z.to_nat i))))) w).2 = err w).
  { unfold sys_read. destruct (fdt w !! fd) as [[p off]|]; [|done].
    by destruct (files w !! p). }
  destruct (sys_read fd _ w) as [[n got] w1]. cbn in Hr.
  destruct (n =? _)%Z; [|cbn; rewrite Hr; by eexists].
  pose proof (write_ppm_touches E filename i pal_data (fill l got)
                (width (wh_at whd (Z.to_nat i))) (height (wh_at whd (Z.to_nat i))) w1)
    as (_ & _ & _ & [m Hm] & _).
  destruct (write_ppm _ _ _ _ _ _ _ _) as [ok w2]. cbn in *.
  exists m. by rewrite Hm, Hr.
Qed.

Lemma sprite_loop_err (E : env) (todo : nat) (fd : Z) (filename : string)
    (pal_data : list palette_entry) (whd : list byte) (i : Z) (st : bool)
    (w : world) :
  exists more, err (sprite_loop E todo fd filename pal_data whd i st w).2 = err w ++ more.
Proof.
  revert i st w. induction todo as [|todo IH]; intros i st w.
  - exists []. cbn. by rewrite app_nil_r.
  - rewrite sprite_loop_S.
    destruct (IH (i + 1)%Z (sprite_body E fd filename pal_data whd i st w).1
                (sprite_body E fd filename pal_data whd i st w).2) as [m1 H1].
    destruct (sprite_body_err E fd filename pal_data whd i st w) as [m2 H2].
    exists (m2 ++ m1). by rewrite H1, H2, app_assoc.
Qed.

(** C3, as the code has it: when the read of the payload of a sprite comes
    back short, the failure is recorded (the message is printed on stderr
    and the status becomes failure), the loop goes on with the entries that
    are left, and the decode returns failure; the decode returns success
    only if, for every sprite that is not empty, the buffer was allocated,
    the payload was read in full and the output file opened.  Whether the
    formatted writes into that file succeeded is not looked at. *)
Theorem decode_spr_partial_failure (E : env) (filename : string)
    (pal_data : list palette_entry) (w : world)
    (fd n : Z) (whd : list byte) (w2 : world) :
  loop_entry E filename w = Some (fd, n, whd, w2) ->
  decode_spr E filename pal_data w
  = sprite_loop E (Z.to_nat n) fd filename pal_data whd 0 true w2 /\
  (forall i, i < Z.to_nat n ->
     read_short E fd whd i (sprite_loop E i fd filename pal_data whd 0 true w2).2 ->
     sprite_loop E (S i) fd filename pal_data whd 0 true w2
     = (false,
        eprintf (msg_pixel_read (entry_count whd i) filename)
          (payload_read fd whd i
             (sprite_loop E i fd filename pal_data whd 0 true w2).2).2) /\
     decode_spr E filename pal_data w
     = sprite_loop E (Z.to_nat n - S i) fd filename pal_data whd (Z.of_nat (S i))
         false
         (eprintf (msg_pixel_read (entry_count whd i) filename)
            (payload_read fd whd i
               (sprite_loop E i fd filename pal_data whd 0 true w2).2).2) /\
     (decode_spr E filename pal_data w).1 = false /\
     msg_pixel_read (entry_count whd i) filename
     ∈ err (decode_spr E filename pal_data w).2) /\
  ((decode_spr E filename pal_data w).1 = true ->
   forall i, i < Z.to_nat n -> entry_nonempty whd i = true ->
     sprite_opened E fd filename whd i
       (sprite_loop E i fd filename pal_data whd 0 true w2).2).
Proof.
  intros Hentry.
  assert (Hrun : decode_spr E filename pal_data w
                 = sprite_loop E (Z.to_nat n) fd filename pal_data whd 0 true w2)
    by (by rewrite decode_spr_loop, Hentry).
  split; [done|]. rewrite Hrun.
  assert (Hsplit : forall i, i < Z.to_nat n ->
            sprite_loop E (Z.to_nat n) fd filename pal_data whd 0 true w2
            = sprite_loop E (Z.to_nat n - S i) fd filename pal_data whd
                (Z.of_nat (S i))
                (sprite_loop E (S i) fd filename pal_data whd 0 true w2).1
                (sprite_loop E (S i) fd filename pal_data whd 0 true w2).2).
  { intros i Hi.
    replace (Z.to_nat n) with (S i + (Z.to_nat n - S i)) at 1 by lia.
    by rewrite sprite_loop_split, Z.add_0_l. }
  split.
  - intros i Hi (Hne & Hmem & Hshort).
    assert (Hturn : sprite_loop E (S i) fd filename pal_data whd 0 true w2
              = (false,
                 eprintf (msg_pixel_read (entry_count whd i) filename)
                   (payload_read fd whd i
                      (sprite_loop E i fd filename pal_data whd 0 true w2).2).2)).
    { rewrite sprite_loop_last, sprite_body_unfold, Hne, Hmem.
      by rewrite (proj2 (Z.eqb_neq _ _) Hshort). }
    split; [done|]. rewrite (Hsplit i Hi), Hturn. cbn [fst snd].
    split; [done|].
    set (w3 := eprintf _ _).
    split.
    + destruct (sprite_loop E (Z.to_nat n - S i) fd filename pal_data whd
                  (Z.of_nat (S i)) false w3).1 eqn:Hst; [|done].
      by apply sprite_loop_true in Hst.
    + destruct (sprite_loop_err E (Z.to_nat n - S i) fd filename pal_data whd
                  (Z.of_nat (S i)) false w3) as [more ->].
      subst w3. cbn. set_solver.
  - intros Hok i Hi Hne. rewrite (Hsplit i Hi) in Hok.
    apply sprite_loop_true in Hok.
    rewrite sprite_loop_last, sprite_body_unfold, Hne in Hok.
    unfold sprite_opened.
    destruct (malloc_ok E _ (entry_count whd i)); [|done].
    destruct (Z.eqb_spec
                (payload_read fd whd i
                   (sprite_loop E i fd filename pal_data whd 0 true w2).2).1.1
                (entry_count whd i)) as [Heq|]; [|done].
    cbn [fst] in Hok. rewrite write_ppm_status in Hok.
    destruct (fopen_ok E _ (ppm_name filename (Z.of_nat i))); done.
Qed.

(** C3, as the claim has it, fails when the formatted writes fail: with
    every output opening and every write failing, the decode of a
    well-formed archive of two sprites returns success and prints no error,
    and both output files are empty: no sprite was written. *)
Lemma decode_spr_partial_failure_counterexample :
  Forall sprite_ok two_sprites /\
  (fprintf E_nowrite (ppm_name "city.spr" 0) (ppm_header x01 x01)
     (world_with "city.spr" (archive x02 two_sprites))).1 = (-1)%Z /\
  (decode_spr E_nowrite "city.spr" gray_palette
     (world_with "city.spr" (archive x02 two_sprites))).1 = true /\
  err (decode_spr E_nowrite "city.spr" gray_palette
         (world_with "city.spr" (archive x02 two_sprites))).2 = [] /\
  files (decode_spr E_nowrite "city.spr" gray_palette
           (world_with "city.spr" (archive x02 two_sprites))).2
    !! ppm_name "city.spr" 0 = Some [] /\
  files (decode_spr E_nowrite "city.spr" gray_palette
           (world_with "city.spr" (archive x02 two_sprites))).2
    !! ppm_name "city.spr" 1 = Some [] /\
  bytes_of (ppm_text gray_palette [x01] x01 x01) <> [].
Proof.
  split; [repeat constructor|].
  repeat split; try (vm_compute; reflexivity).
  vm_compute. discriminate.
Qed.

(** One turn of the loop on an entry with a zero width or a zero height
    leaves the world and the status as they were. *)
Lemma sprite_body_empty (E : env) (fd : Z) (filename : string)
    (pal_data : list palette_entry) (whd : list byte) (i : nat) (st : bool)
    (w : world) :
  entry_nonempty whd i = false ->
  sprite_body E fd filename pal_data whd (Z.of_nat i) st w = (st, w).
Proof. intros H. by rewrite sprite_body_unfold, H. Qed.

Lemma entry_count_range (whd : list byte) (i : nat) :
  (0 <= entry_count whd i)%Z.
Proof.
  unfold entry_count. rewrite uint_fast16_product.
  pose proof (byte_val_range (width (wh_at whd i))).
  pose proof (byte_val_range (height (wh_at whd i))). nia.
Qed.

(** On an archive that holds every payload its directory announces, under a
    name that no output name can equal, with allocations that succeed, the
    descriptor stands after [k] turns past the payloads of the sprites
    before [k] that are not empty, and the archive is untouched. *)
Lemma sprite_loop_offsets (E : env) (fd : Z) (filename : string)
    (pal_data : list palette_entry) (whd data : list byte) (off : nat) :
  (forall w n, malloc_ok E w n = true) ->
  String.length filename <> 30 ->
  forall (k : nat) (st : bool) (w : world),
    k <= 256 ->
    fdt w !! fd = Some (filename, off) ->
    files w !! filename = Some data ->
    off + payload_before whd k <= length data ->
    fdt (sprite_loop E k fd filename pal_data whd 0 st w).2 !! fd
    = Some (filename, off + payload_before whd k) /\
    files (sprite_loop E k fd filename pal_data whd 0 st w).2 !! filename
    = Some data.
Proof.
  intros Hmem Hname. induction k as [|k IH]; intros st w Hk Hfd Hfile Hlen.
  - cbn. by rewrite Nat.add_0_r.
  - cbn [payload_before] in Hlen |- *.
    destruct (IH st w) as [IHfd IHfile]; [lia|done|done|lia|].
    rewrite sprite_loop_last, sprite_body_unfold.
    destruct (entry_nonempty whd k) eqn:Hne; [|by rewrite Nat.add_0_r].
    rewrite Hmem. unfold payload_read.
    pose proof (entry_count_range whd k) as Hc.
    rewrite (sys_read_full _ _ _ _ _ _ IHfd IHfile) by lia.
    rewrite Z.eqb_refl. cbn [fst snd].
    set (w3 := set_fdt _ _).
    destruct (write_ppm_touches E filename (Z.of_nat k) pal_data
                (fill (replicate (Z.to_nat (entry_count whd k)) x00)
                   (take (Z.to_nat (entry_count whd k))
                      (drop (off + payload_before whd k) data)))
                (width (wh_at whd k)) (height (wh_at whd k)) w3)
      as (Hf & _ & _ & _ & Hother).
    rewrite Hf, Hother.
    + subst w3. cbn. rewrite lookup_insert_eq. split; [|done].
      do 2 f_equal. lia.
    + intros Heq. symmetry in Heq. revert Heq. apply ppm_name_ne_base; [lia|done].
Qed.

(** ** decode_spr: the way to the loop *)

(** The loop is reached only with the archive open on a descriptor the code
    accepts, and with a first byte read from it. *)
Lemma loop_entry_inv (E : env) (filename : string) (w : world) (fd n : Z)
    (whd : list byte) (w2 : world) :
  loop_entry E filename w = Some (fd, n, whd, w2) ->
  (0 < (sys_open E filename w).1)%Z /\
  exists count rest, files w !! filename = Some (count :: rest).
Proof.
  unfold loop_entry. intros H.
  destruct (Z.ltb_spec 0 (sys_open E filename w).1) as [Hfd|Hfd].
  - split; [done|].
    destruct (sys_open_inv E filename w) as ([data Hdata] & _ & Hw); [lia|].
    destruct (sys_open E filename w) as [fd0 w1]. cbn in Hfd, Hw. subst w1.
    rewrite (proj2 (Z.ltb_lt 0 fd0) Hfd) in H.
    erewrite sys_read_at in H; [|cbn; apply lookup_insert_eq|exact Hdata].
    destruct data as [|count rest]; [done|]. by exists count, rest.
  - destruct (sys_open E filename w) as [fd0 w1]. cbn in Hfd.
    by rewrite (proj2 (Z.ltb_ge 0 fd0) Hfd) in H.
Qed.

(** A read on a descriptor that was just positioned. *)
Lemma sys_read_set (fd count : Z) (w : world) (path : string) (off : nat)
    (data : list byte) :
  files w !! path = Some data ->
  sys_read fd count (set_fdt (<[fd := (path, off)]> (fdt w)) w)
  = (Z.of_nat (length (take (Z.to_nat count) (drop off data))),
     take (Z.to_nat count) (drop off data),
     set_fdt (<[fd := (path, off + length (take (Z.to_nat count) (drop off data)))]>
                (fdt w)) w).
Proof.
  intros Hdata.
  erewrite sys_read_at; [|cbn; apply lookup_insert_eq|exact Hdata].
  unfold set_fdt. cbn. by rewrite insert_insert_eq.
Qed.

(** With the archive open and its first byte [count] read, the loop is
    reached exactly when the directory is allocated and read in full. *)
Lemma loop_entry_opened (E : env) (filename : string) (w : world)
    (count : byte) (rest : list byte) :
  files w !! filename = Some (count :: rest) ->
  (0 < (sys_open E filename w).1)%Z ->
  loop_entry E filename w
  = if malloc_ok E
         (printf ("Number of sprites in file: " +:+ fmt_d (byte_val count) +:+ nl)
            (set_fdt (<[(sys_open E filename w).1 := (filename, 1)]> (fdt w)) w))
         (byte_val count * 2)
    then
      if decide (2 * Z.to_nat (byte_val count) <= length rest)
      then Some ((sys_open E filename w).1, byte_val count,
                 take (2 * Z.to_nat (byte_val count)) rest,
                 set_fdt (<[(sys_open E filename w).1
                            := (filename, 1 + 2 * Z.to_nat (byte_val count))]> (fdt w))
                   (printf ("Number of sprites in file: "
                            +:+ fmt_d (byte_val count) +:+ nl) w))
      else None
    else None.
Proof.
  intros Hdata Hfd. unfold loop_entry.
  destruct (sys_open_inv E filename w) as (_ & _ & Hw); [lia|].
  destruct (sys_open E filename w) as [fd w1]. cbn [fst snd] in Hfd, Hw |- *.
  subst w1. rewrite (proj2 (Z.ltb_lt 0 fd) Hfd).
  rewrite (sys_read_set fd 1 w filename 0 _ Hdata).
  change (take (Z.to_nat 1) (drop 0 (count :: rest))) with [count].
  change (Z.of_nat (length [count]) =? 1)%Z with true.
  change (nth 0 [count] x00) with count.
  change (0 + length [count]) with 1.
  cbv beta iota zeta.
  rewrite uint16_header. unfold malloc.
  set (msg := "Number of sprites in file: " +:+ fmt_d (byte_val count) +:+ nl).
  destruct (malloc_ok E _ _); [|done].
  change (printf msg (set_fdt (<[fd:=(filename, 1)]> (fdt w)) w))
    with (set_fdt (<[fd:=(filename, 1)]> (fdt (printf msg w))) (printf msg w)).
  rewrite (sys_read_set fd _ (printf msg w) filename 1 (count :: rest) Hdata).
  change (drop 1 (count :: rest)) with rest.
  rewrite length_take. pose proof (byte_val_range count) as Hc.
  replace (Z.to_nat (byte_val count * 2)) with (2 * Z.to_nat (byte_val count)) by lia.
  destruct (decide (2 * Z.to_nat (byte_val count) <= length rest)) as [Hlen|Hlen].
  - rewrite (proj2 (Z.eqb_eq _ _)) by lia.
    rewrite fill_full by (rewrite length_take; lia).
    by rewrite Nat.min_l by lia.
  - by rewrite (proj2 (Z.eqb_neq _ _)) by lia.
Qed.

Lemma payload_before_mono (whd : list byte) (k m : nat) :
  k <= m -> payload_before whd k <= payload_before whd m.
Proof.
  induction 1 as [|m Hm IH]; [done|].
  cbn [payload_before]. etrans; [exact IH|apply Nat.le_add_r].
Qed.

(** C4: an entry with a zero width or a zero height consumes no byte and
    emits no file: its turn of the loop leaves the world, in particular the
    offset of the descriptor and the files, as it was.  On an archive that
    holds every announced payload, each turn [k] starts with the descriptor
    past the count, the directory and the payloads of the entries before [k]
    that are not empty. *)
Theorem empty_entry_skipped (E : env) (filename : string)
    (pal_data : list palette_entry) (w : world)
    (fd n : Z) (whd : list byte) (w2 : world) (data : list byte) :
  loop_entry E filename w = Some (fd, n, whd, w2) ->
  files w !! filename = Some data ->
  (forall i st w', entry_nonempty whd i = false ->
     sprite_body E fd filename pal_data whd (Z.of_nat i) st w' = (st, w')) /\
  (forall i, entry_nonempty whd i = false ->
     sprite_loop E (S i) fd filename pal_data whd 0 true w2
     = sprite_loop E i fd filename pal_data whd 0 true w2) /\
  ((forall w' m, malloc_ok E w' m = true) ->
   String.length filename <> 30 ->
   1 + 2 * Z.to_nat n + payload_before whd (Z.to_nat n) <= length data ->
   forall k, k <= Z.to_nat n ->
     fdt (sprite_loop E k fd filename pal_data whd 0 true w2).2 !! fd
     = Some (filename, 1 + 2 * Z.to_nat n + payload_before whd k) /\
     files (sprite_loop E k fd filename pal_data whd 0 true w2).2 !! filename
     = Some data).
Proof.
  intros Hentry Hdata.
  split; [intros i st w' Hi; by apply sprite_body_empty|].
  split.
  { intros i Hi. rewrite sprite_loop_last, sprite_body_empty by done.
    by destruct (sprite_loop _ _ _ _ _ _ _ _ _). }
  intros Hmem Hname Hlen k Hk.
  destruct (loop_entry_inv _ _ _ _ _ _ _ Hentry) as (Hfd & count & rest & Hfile).
  rewrite (loop_entry_opened E filename w count rest Hfile Hfd), Hmem in Hentry.
  destruct (decide _) as [Hdir|]; [|done].
  injection Hentry as <- <- <- <-.
  assert (Hdata' : data = count :: rest) by congruence. subst data.
  pose proof (byte_val_range count) as Hc.
  apply sprite_loop_offsets; try done; try lia.
  - cbn. apply lookup_insert_eq.
  - etrans; [|exact Hlen]. apply Nat.add_le_mono_l.
    by apply payload_before_mono.
Qed.

Lemma empty_entry_skipped_witness :
  fdt (sprite_loop E_ok 2 3 "a.spr" []
         [x02; x01; x00; x05; x01; x01] 0 true
         (set_fdt (<[3%Z := ("a.spr", 7)]> console)
            (printf ("Number of sprites in file: 3" +:+ nl)
               (world_with "a.spr" [x03; x02; x01; x00; x05; x01; x01;
                                    x0a; x0b; x0c])))).2 !! 3%Z
  = Some ("a.spr", 9).
Proof.
  refine (proj1 (proj2 (proj2 (empty_entry_skipped E_ok "a.spr" []
            (world_with "a.spr" [x03; x02; x01; x00; x05; x01; x01; x0a; x0b; x0c])
            3 3 [x02; x01; x00; x05; x01; x01] _
            [x03; x02; x01; x00; x05; x01; x01; x0a; x0b; x0c] _ _))
          _ _ _ 2 _)).
  - vm_compute; reflexivity.
  - vm_compute; reflexivity.
  - intros; reflexivity.
  - vm_compute; congruence.
  - vm_compute; lia.
  - lia.
Defined.

(** C6: an archive whose count byte is zero, once open, is decoded with
    success, and no file is created or changed. *)
Theorem decode_spr_empty_archive (E : env) (filename : string)
    (pal_data : list palette_entry) (w : world) (rest : list byte) :
  files w !! filename = Some (x00 :: rest) ->
  (0 < (sys_open E filename w).1)%Z ->
  (forall w', malloc_ok E w' 0 = true) ->
  (decode_spr E filename pal_data w).1 = true /\
  files (decode_spr E filename pal_data w).2 = files w /\
  streams (decode_spr E filename pal_data w).2 = streams w /\
  err (decode_spr E filename pal_data w).2 = err w.
Proof.
  intros Hfile Hfd Hmem.
  rewrite decode_spr_loop, (loop_entry_opened E filename w x00 rest Hfile Hfd).
  change (byte_val x00) with 0%Z. change (0 * 2)%Z with 0%Z.
  rewrite Hmem. change (Z.to_nat 0) with 0.
  rewrite decide_True by (cbn; lia). done.
Qed.

Lemma decode_spr_empty_archive_witness :
  (decode_spr E_ok "a.spr" [] (world_with "a.spr" [x00])).1 = true /\
  files (decode_spr E_ok "a.spr" [] (world_with "a.spr" [x00])).2
  = files (world_with "a.spr" [x00]).
Proof.
  destruct (decode_spr_empty_archive E_ok "a.spr" [] (world_with "a.spr" [x00]) [])
    as (H1 & H2 & _).
  - vm_compute; reflexivity.
  - vm_compute; reflexivity.
  - intros; reflexivity.
  - split; [exact H1|exact H2].
Defined.

(** ** Descriptors *)

Lemma sys_read_keeps (fd count k : Z) (w : world) :
  is_Some (fdt w !! k) -> is_Some (fdt (sys_read fd count w).2 !! k).
Proof.
  intros Hk. unfold sys_read.
  destruct (fdt w !! fd) as [[p off]|] eqn:Hfd; [|done].
  destruct (files w !! p); [|done]. cbn.
  destruct (decide (fd = k)) as [->|Hne].
  - rewrite lookup_insert_eq. by eexists.
  - by rewrite lookup_insert_ne.
Qed.

Lemma sprite_body_keeps (E : env) (fd : Z) (filename : string)
    (pal_data : list palette_entry) (whd : list byte) (i : Z) (st : bool)
    (w : world) (k : Z) :
  is_Some (fdt w !! k) ->
  is_Some (fdt (sprite_body E fd filename pal_data whd i st w).2 !! k).
Proof.
  intros Hk. unfold sprite_body.
  destruct (nonzero _ && nonzero _); [|done].
  destruct (malloc E w _) as [buf|]; [|done].
  pose proof (sys_read_keeps fd
                (uint_fast16 (byte_val (width (wh_at whd (Z.to_nat i)))
                              * byte_val (height (wh_at whd (Z.to_nat i)))))
                k w Hk) as Hr.
  destruct (sys_read fd _ w) as [[n got] w1]. cbn in Hr.
  destruct (n =? _)%Z; [|done].
  pose proof (write_ppm_touches E filename i pal_data (fill buf got)
                (width (wh_at whd (Z.to_nat i))) (height (wh_at whd (Z.to_nat i))) w1)
    as (Hf & _).
  destruct (write_ppm _ _ _ _ _ _ _ _) as [ok w2]. cbn in *. by rewrite Hf.
Qed.

Lemma sprite_loop_keeps (E : env) (todo : nat) (fd : Z) (filename : string)
    (pal_data : list palette_entry) (whd : list byte) (i : Z) (st : bool)
    (w : world) (k : Z) :
  is_Some (fdt w !! k) ->
  is_Some (fdt (sprite_loop E todo fd filename pal_data whd i st w).2 !! k).
Proof.
  revert i st w. induction todo as [|todo IH]; intros i st w Hk; [done|].
  rewrite sprite_loop_S. by apply IH, sprite_body_keeps.
Qed.

(** C7, what the code does: [read_palette] gives back the descriptor it
    opened, on success and on a failed read; [decode_spr] never does: on every
    path after its [open], the descriptor that was free before the call is
    still open when the call returns. *)
Theorem decode_spr_keeps_descriptor (E : env) (filename : string)
    (pal_data : list palette_entry) (buf : list byte) (w : world) :
  (0 < (sys_open E filename w).1)%Z ->
  fdt (read_palette E filename buf w).2 = fdt w /\
  fdt w !! (sys_open E filename w).1 = None /\
  is_Some (fdt (decode_spr E filename pal_data w).2 !! (sys_open E filename w).1).
Proof.
  intros Hfd.
  destruct (sys_open_inv E filename w) as ([data Hdata] & Hfree & Hw); [lia|].
  split; [|split; [done|]].
  - rewrite (read_palette_opened E filename buf w data Hdata Hfd). cbn zeta.
    by destruct (_ =? _)%Z.
  - unfold decode_spr.
    destruct (sys_open E filename w) as [fd w1]. cbn [fst snd] in *. subst w1.
    rewrite (proj2 (Z.ltb_lt 0 fd) Hfd).
    assert (H0 : is_Some (fdt (set_fdt (<[fd:=(filename, 0)]> (fdt w)) w) !! fd)).
    { cbn. rewrite lookup_insert_eq. by eexists. }
    pose proof (sys_read_keeps fd 1 fd _ H0) as H1.
    destruct (sys_read fd 1 _) as [[n got] w1]. cbn [snd] in H1.
    destruct (n =? 1)%Z; [|done].
    destruct (malloc E _ _) as [whd|]; [|done].
    set (w2 := printf _ w1) in *.
    assert (H2 : is_Some (fdt w2 !! fd)) by done.
    pose proof (sys_read_keeps fd
                  (uint16 (byte_val (nth 0 got x00) * 2)) fd w2 H2) as H3.
    destruct (sys_read fd _ w2) as [[n' got'] w3]. cbn [snd] in H3.
    destruct (n' =? _)%Z; [|done].
    by apply sprite_loop_keeps.
Qed.

Lemma decode_spr_keeps_descriptor_witness :
  fdt (world_with "a.spr" [x00]) !! 3%Z = None /\
  (decode_spr E_ok "a.spr" [] (world_with "a.spr" [x00])).1 = true /\
  is_Some (fdt (decode_spr E_ok "a.spr" [] (world_with "a.spr" [x00])).2 !! 3%Z).
Proof.
  destruct (decode_spr_keeps_descriptor E_ok "a.spr" [] []
              (world_with "a.spr" [x00])) as (_ & H1 & H2).
  - vm_compute; reflexivity.
  - split; [exact H1|]. split; [vm_compute; reflexivity|exact H2].
Defined.

(** ** Archives *)

Lemma directory_at (l : list sprite) (i : nat) (s : sprite) :
  l !! i = Some s -> wh_at (directory l) i = WH (s_width s) (s_height s).
Proof.
  unfold wh_at. revert i. induction l as [|a l IH]; intros i Hi; [done|].
  destruct i as [|i].
  - injection Hi as ->. done.
  - replace (2 * S i) with (S (S (2 * i))) by lia.
    apply (IH i) in Hi. exact Hi.
Qed.

Lemma directory_length (l : list sprite) : length (directory l) = 2 * length l.
Proof.
  unfold directory. induction l as [|a l IH]; [done|]. cbn. rewrite IH. lia.
Qed.

Lemma payloads_app (l1 l2 : list sprite) :
  payloads (l1 ++ l2) = payloads l1 ++ payloads l2.
Proof. apply flat_map_app. Qed.

Lemma entry_nonempty_archive (l : list sprite) (i : nat) (s : sprite) :
  l !! i = Some s -> entry_nonempty (directory l) i = negb (s_empty s).
Proof.
  intros Hi. unfold entry_nonempty, s_empty.
  rewrite (directory_at l i s Hi). cbn. by rewrite negb_involutive.
Qed.

Lemma entry_count_archive (l : list sprite) (i : nat) (s : sprite) :
  l !! i = Some s ->
  entry_count (directory l) i = (byte_val (s_width s) * byte_val (s_height s))%Z.
Proof.
  intros Hi. unfold entry_count. rewrite (directory_at l i s Hi). cbn.
  apply uint_fast16_product.
Qed.

(** The payload of an entry is as long as the loop thinks. *)
Lemma sprite_payload_length (l : list sprite) (i : nat) (s : sprite) :
  l !! i = Some s -> sprite_ok s ->
  (if entry_nonempty (directory l) i
   then Z.to_nat (entry_count (directory l) i) else 0) = length (s_pixels s).
Proof.
  intros Hi Hok. unfold sprite_ok in Hok.
  rewrite (entry_nonempty_archive l i s Hi), (entry_count_archive l i s Hi).
  unfold s_empty. rewrite negb_involutive.
  destruct (nonzero (s_width s)) eqn:Hw; [destruct (nonzero (s_height s)) eqn:Hh|];
    cbn; [done| |].
  - apply nonzero_false in Hh. rewrite Hh, Z.mul_0_r in Hok. by rewrite Hok.
  - apply nonzero_false in Hw. rewrite Hw, Z.mul_0_l in Hok. by rewrite Hok.
Qed.

Lemma payload_before_archive (l : list sprite) (k : nat) :
  Forall sprite_ok l -> k <= length l ->
  payload_before (directory l) k = length (payloads (take k l)).
Proof.
  intros Hok. induction k as [|k IH]; intros Hk; [done|].
  destruct (lookup_lt_is_Some_2 l k) as [s Hs]; [lia|].
  rewrite (take_S_r _ _ _ Hs), payloads_app, length_app.
  cbn [payload_before]. rewrite IH by lia.
  rewrite (sprite_payload_length l k s Hs).
  - unfold payloads. cbn. by rewrite app_nil_r.
  - by apply (Forall_lookup_1 _ _ _ _ Hok Hs).
Qed.

Lemma payloads_take_length (l : list sprite) (k : nat) :
  length (payloads (take k l)) <= length (payloads l).
Proof.
  rewrite <- (take_drop k l) at 2. rewrite payloads_app, length_app. lia.
Qed.

Lemma payloads_split (l : list sprite) (k : nat) (s : sprite) :
  l !! k = Some s ->
  length (payloads l)
  = length (payloads (take k l)) + length (s_pixels s)
    + length (payloads (drop (S k) l)).
Proof.
  intros Hs. rewrite <- (take_drop k l) at 1.
  rewrite payloads_app, length_app, (drop_S _ _ _ Hs).
  unfold payloads at 2. cbn [flat_map]. rewrite length_app.
  fold (payloads (drop (S k) l)). lia.
Qed.

(** Where the payload of the sprite [k] lies in the archive. *)
Lemma archive_payload (count : byte) (l : list sprite) (k : nat) (s : sprite) :
  l !! k = Some s ->
  take (length (s_pixels s))
    (drop (1 + 2 * length l + length (payloads (take k l))) (archive count l))
  = s_pixels s.
Proof.
  intros Hs. unfold archive.
  replace (1 + 2 * length l + length (payloads (take k l)))
    with (S (length (directory l) + length (payloads (take k l))))
    by (rewrite directory_length; lia).
  cbn [drop]. rewrite drop_app_add.
  rewrite <- (take_drop k l) at 2. rewrite payloads_app, drop_app_length.
  rewrite (drop_S _ _ _ Hs). unfold payloads at 1. cbn [flat_map].
  apply take_app_length.
Qed.

Lemma gray_palette_color (x : byte) : color_of gray_palette x = RGB x x x.
Proof. destruct x; reflexivity. Qed.

(** ** decode_spr: the round trip *)

(** After [k] turns on a well-formed archive, in an environment where nothing
    fails and under a name short enough for the output names to differ, the
    status is success and every sprite before [k] that is not empty has its
    pixmap under its name. *)
Lemma sprite_loop_roundtrip (E : env) (fd : Z) (filename : string)
    (pal_data : list palette_entry) (count : byte) (l : list sprite)
    (w2 : world) :
  nominal E -> String.length filename <= 26 ->
  Forall sprite_ok l -> length l <= 255 ->
  fdt w2 !! fd = Some (filename, 1 + 2 * length l) ->
  files w2 !! filename = Some (archive count l) ->
  forall k, k <= length l ->
    (sprite_loop E k fd filename pal_data (directory l) 0 true w2).1 = true /\
    forall j s, j < k -> l !! j = Some s -> s_empty s = false ->
      files (sprite_loop E k fd filename pal_data (directory l) 0 true w2).2
        !! ppm_name filename (Z.of_nat j)
      = Some (bytes_of (ppm_text pal_data (s_pixels s) (s_width s) (s_height s))).
Proof.
  intros (Hmem & Hopen & Hwrite) Hname Hok Hcount Hfd Hfile.
  induction k as [|k IH]; intros Hk.
  { split; [done|]. intros; lia. }
  destruct IH as [IHst IHfiles]; [lia|].
  destruct (lookup_lt_is_Some_2 l k) as [s Hs]; [lia|].
  assert (Hsok : sprite_ok s) by (by apply (Forall_lookup_1 _ _ _ _ Hok Hs)).
  pose proof (payloads_take_length l k) as Hpl.
  destruct (sprite_loop_offsets E fd filename pal_data (directory l)
              (archive count l) (1 + 2 * length l) Hmem ltac:(lia) k true w2)
    as [Hkfd Hkfile]; [lia|done|done| |].
  { rewrite payload_before_archive by (done || lia).
    unfold archive. cbn [length]. rewrite length_app, directory_length. lia. }
  rewrite payload_before_archive in Hkfd by (done || lia).
  rewrite sprite_loop_last, sprite_body_unfold.
  pose proof (sprite_payload_length l k s Hs Hsok) as Hplen.
  destruct (entry_nonempty (directory l) k) eqn:Hne.
  - (* the sprite has pixels *)
    rewrite Hmem. unfold payload_read.
    pose proof (entry_count_range (directory l) k) as Hc.
    assert (Hin : 1 + 2 * length l + length (payloads (take k l))
                  + Z.to_nat (entry_count (directory l) k)
                  <= length (archive count l)).
    { rewrite Hplen. unfold archive. cbn [length].
      rewrite length_app, directory_length, (payloads_split l k s Hs). lia. }
    rewrite (sys_read_full _ _ _ _ _ _ Hkfd Hkfile) by lia.
    rewrite Z.eqb_refl. cbn [fst snd].
    rewrite Hplen, (archive_payload count l k s Hs), fill_full by done.
    set (w3 := set_fdt _ _).
    destruct (write_ppm_nominal E filename (Z.of_nat k) pal_data (s_pixels s)
                (width (wh_at (directory l) k)) (height (wh_at (directory l) k))
                w3 Hopen Hwrite) as (Hst & Hout & _).
    { rewrite (directory_at l k s Hs). exact Hsok. }
    destruct (write_ppm_touches E filename (Z.of_nat k) pal_data (s_pixels s)
                (width (wh_at (directory l) k)) (height (wh_at (directory l) k)) w3)
      as (_ & _ & _ & _ & Hother).
    rewrite Hst, IHst. split; [done|].
    intros j s' Hj Hs' Hne'. destruct (decide (j = k)) as [->|Hjk].
    + assert (s' = s) by congruence. subst s'.
      rewrite Hout. by rewrite (directory_at l k s Hs).
    + rewrite Hother.
      * subst w3. cbn [files set_fdt]. apply IHfiles; [lia|done|done].
      * intros Heq. apply ppm_name_inj in Heq; lia.
  - (* the entry is empty *)
    rewrite IHst. split; [done|].
    intros j s' Hj Hs' Hne'. destruct (decide (j = k)) as [->|Hjk].
    + assert (s' = s) by congruence. subst s'.
      rewrite (entry_nonempty_archive l k s Hs), Hne' in Hne. done.
    + apply IHfiles; [lia|done|done].
Qed.

(** A well-formed archive that opens reaches the loop with its directory
    read and the descriptor at the first payload. *)
Lemma decode_spr_archive_loop (E : env) (filename : string)
    (pal_data : list palette_entry) (w : world) (count : byte) (l : list sprite) :
  (forall w' n, malloc_ok E w' n = true) ->
  (0 < (sys_open E filename w).1)%Z ->
  files w !! filename = Some (archive count l) ->
  Z.to_nat (byte_val count) = length l ->
  decode_spr E filename pal_data w
  = sprite_loop E (length l) (sys_open E filename w).1 filename pal_data
      (directory l) 0 true
      (set_fdt (<[(sys_open E filename w).1 := (filename, 1 + 2 * length l)]> (fdt w))
         (printf ("Number of sprites in file: " +:+ fmt_d (byte_val count) +:+ nl) w)).
Proof.
  intros Hmem Hfd Hfile Hcount.
  rewrite decode_spr_loop.
  rewrite (loop_entry_opened E filename w count _ Hfile Hfd), Hmem.
  rewrite decide_True by (rewrite length_app, directory_length; lia).
  by rewrite Hcount, <- directory_length, take_app_length.
Qed.

(** C1, as the code has it: in an environment where nothing fails, an
    archive made of a count, a directory and the payloads the directory
    announces, stored under a name of at most 26 characters, is decoded with
    success, and the output file of every sprite that is not empty holds the
    header and then the pixels of its payload, in order, each mapped through
    the palette. *)
Theorem decode_spr_roundtrip (E : env) (filename : string)
    (pal_data : list palette_entry) (w : world) (count : byte) (l : list sprite) :
  nominal E ->
  String.length filename <= 26 ->
  (0 < (sys_open E filename w).1)%Z ->
  files w !! filename = Some (archive count l) ->
  Z.to_nat (byte_val count) = length l ->
  Forall sprite_ok l ->
  (decode_spr E filename pal_data w).1 = true /\
  forall j s, l !! j = Some s -> s_empty s = false ->
    files (decode_spr E filename pal_data w).2 !! ppm_name filename (Z.of_nat j)
    = Some (bytes_of (ppm_text pal_data (s_pixels s) (s_width s) (s_height s))).
Proof.
  intros Hnom Hname Hfd Hfile Hcount Hok.
  pose proof (byte_val_range count) as Hc.
  rewrite (decode_spr_archive_loop E filename pal_data w count l
             (proj1 Hnom) Hfd Hfile Hcount).
  set (w2 := set_fdt _ _).
  destruct (sprite_loop_roundtrip E (sys_open E filename w).1 filename pal_data
              count l w2 Hnom Hname Hok ltac:(lia)) with (k := length l)
    as [Hst Hfiles].
  - subst w2. cbn. by rewrite lookup_insert_eq.
  - done.
  - done.
  - split; [done|]. intros j s Hj Hne. apply Hfiles; [|done|done].
    by apply lookup_lt_Some in Hj.
Qed.

Lemma nominal_E_ok : nominal E_ok.
Proof. by repeat split. Qed.

Lemma two_sprites_ok : Forall sprite_ok two_sprites.
Proof. repeat constructor. Qed.

Lemma decode_spr_roundtrip_witness :
  files (decode_spr E_ok "city.spr" gray_palette
           (world_with "city.spr" (archive x02 two_sprites))).2
    !! ppm_name "city.spr" 1
  = Some (bytes_of (ppm_text gray_palette [x02] x01 x01)).
Proof.
  refine (proj2 (decode_spr_roundtrip E_ok "city.spr" gray_palette
                   (world_with "city.spr" (archive x02 two_sprites)) x02 two_sprites
                   nominal_E_ok _ _ _ _ two_sprites_ok)
            1 (Sprite x01 x01 [x02]) _ _).
  - vm_compute; lia.
  - vm_compute; reflexivity.
  - vm_compute; reflexivity.
  - vm_compute; reflexivity.
  - reflexivity.
  - reflexivity.
Defined.

(** C1, as the claim has it, fails under a name of 27 characters: the names
    of the outputs of the sprites 0 and 1 are cut to the same 30 characters,
    and the file holds the pixel of sprite 1, not that of sprite 0. *)
Lemma decode_spr_roundtrip_counterexample :
  nominal E_ok /\ Forall sprite_ok two_sprites /\
  String.length long_name = 27 /\
  (decode_spr E_ok long_name gray_palette
     (world_with long_name (archive x02 two_sprites))).1 = true /\
  ppm_name long_name 0 = ppm_name long_name 1 /\
  files (decode_spr E_ok long_name gray_palette
           (world_with long_name (archive x02 two_sprites))).2
    !! ppm_name long_name 0
  = Some (bytes_of (ppm_text gray_palette [x02] x01 x01)) /\
  bytes_of (ppm_text gray_palette [x02] x01 x01)
  <> bytes_of (ppm_text gray_palette [x01] x01 x01).
Proof.
  split; [exact nominal_E_ok|]. split; [exact two_sprites_ok|].
  repeat split; try (vm_compute; reflexivity).
  vm_compute. discriminate.
Qed.

(** ** write_ppm: the example, the name, the status *)

(** C5: for the sprite of width 4 and height 2 with the pixels 0 to 7 and a
    palette that maps [i] to ([i], [i], [i]), [write_ppm] writes the tag P3,
    the dimensions 4 2 and the maximum 255, then the eight triplets from 000
    000 000 to 007 007 007 in order, with a line feed before the first and
    after the fourth; decoding the archive that holds this one sprite leaves
    the same text in its output file. *)
Theorem write_ppm_example (E : env) (filename : string) (sprite_index : Z)
    (palette : list palette_entry) (w w0 : world) :
  nominal E ->
  (forall x, color_of palette x = RGB x x x) ->
  String.length filename <= 26 ->
  (0 < (sys_open E filename w0).1)%Z ->
  files w0 !! filename
  = Some [x01; x04; x02; x00; x01; x02; x03; x04; x05; x06; x07] ->
  (write_ppm E filename sprite_index palette
     [x00; x01; x02; x03; x04; x05; x06; x07] x04 x02 w).1 = true /\
  files (write_ppm E filename sprite_index palette
           [x00; x01; x02; x03; x04; x05; x06; x07] x04 x02 w).2
    !! ppm_name filename sprite_index
  = Some (bytes_of
            ("P3" +:+ nl +:+ "4 2" +:+ nl +:+ "255" +:+ nl
             +:+ "000 000 000   001 001 001   002 002 002   003 003 003   " +:+ nl
             +:+ "004 004 004   005 005 005   006 006 006   007 007 007   ")) /\
  files (decode_spr E filename palette w0).2 !! ppm_name filename 0
  = Some (bytes_of
            ("P3" +:+ nl +:+ "4 2" +:+ nl +:+ "255" +:+ nl
             +:+ "000 000 000   001 001 001   002 002 002   003 003 003   " +:+ nl
             +:+ "004 004 004   005 005 005   006 006 006   007 007 007   ")).
Proof.
  intros Hnom Hpal Hname Hfd Hfile.
  assert (Htext : ppm_text palette [x00; x01; x02; x03; x04; x05; x06; x07] x04 x02
                  = "P3" +:+ nl +:+ "4 2" +:+ nl +:+ "255" +:+ nl
                    +:+ "000 000 000   001 001 001   002 002 002   003 003 003   "
                    +:+ nl
                    +:+ "004 004 004   005 005 005   006 006 006   007 007 007   ").
  { unfold ppm_text. cbn [map]. rewrite !Hpal. vm_compute. reflexivity. }
  destruct Hnom as (Hmem & Hopen & Hwrite).
  destruct (write_ppm_nominal E filename sprite_index palette
              [x00; x01; x02; x03; x04; x05; x06; x07] x04 x02 w Hopen Hwrite)
    as (Hst & Hout & _); [reflexivity|].
  split; [done|]. split; [by rewrite Hout, Htext|].
  rewrite (decode_spr_archive_loop E filename palette w0 x01
             [Sprite x04 x02 [x00; x01; x02; x03; x04; x05; x06; x07]]
             Hmem Hfd Hfile eq_refl).
  set (w2 := set_fdt _ _).
  destruct (sprite_loop_roundtrip E (sys_open E filename w0).1 filename palette
              x01 [Sprite x04 x02 [x00; x01; x02; x03; x04; x05; x06; x07]] w2)
    with (k := 1) as [_ Hfiles]; try done.
  - by repeat constructor.
  - cbn. lia.
  - subst w2. cbn. by rewrite lookup_insert_eq.
  - pose proof (Hfiles 0 _ ltac:(lia) eq_refl eq_refl) as H0.
    cbn [s_pixels s_width s_height] in H0. change (Z.of_nat 0) with 0%Z in H0.
    cbn [length]. by rewrite H0, Htext.
Qed.

Lemma write_ppm_example_witness :
  files (decode_spr E_ok "city.spr" gray_palette
           (world_with "city.spr"
              [x01; x04; x02; x00; x01; x02; x03; x04; x05; x06; x07])).2
    !! ppm_name "city.spr" 0
  = Some (bytes_of
            ("P3" +:+ nl +:+ "4 2" +:+ nl +:+ "255" +:+ nl
             +:+ "000 000 000   001 001 001   002 002 002   003 003 003   " +:+ nl
             +:+ "004 004 004   005 005 005   006 006 006   007 007 007   ")).
Proof.
  refine (proj2 (proj2 (write_ppm_example E_ok "city.spr" 0 gray_palette
                          (world_with "city.spr" []) _
                          nominal_E_ok gray_palette_color _ _ _))).
  - vm_compute; lia.
  - vm_compute; reflexivity.
  - vm_compute; reflexivity.
Defined.

Lemma fprintf_is_Some (E : env) (fd text : string) (w : world) (q : string) :
  is_Some (files w !! q) -> is_Some (files (fprintf E fd text w).2 !! q).
Proof.
  intros Hq. unfold fprintf. destruct (fprintf_ok E w fd); [|done]. cbn.
  destruct (decide (fd = q)) as [->|Hne].
  - rewrite lookup_insert_eq. by eexists.
  - by rewrite lookup_insert_ne.
Qed.

Lemma ppm_pixels_is_Some (E : env) (todo : nat) (i : Z) (fd : string)
    (palette : list palette_entry) (data : list byte) (w : world) (q : string) :
  is_Some (files w !! q) ->
  is_Some (files (ppm_pixels E todo i fd palette data w) !! q).
Proof.
  revert i w. induction todo as [|todo IH]; intros i w Hq; [done|].
  cbn. apply IH, fprintf_is_Some.
  destruct (i mod 4 =? 0)%Z; [by apply fprintf_is_Some|done].
Qed.

(** When no formatted write succeeds, the pixel loop changes nothing. *)
Lemma ppm_pixels_all_fail (E : env) (todo : nat) (i : Z) (fd : string)
    (palette : list palette_entry) (data : list byte) (w : world) :
  (forall w' p, fprintf_ok E w' p = false) ->
  ppm_pixels E todo i fd palette data w = w.
Proof.
  intros Hfail. revert i w. induction todo as [|todo IH]; intros i w; [done|].
  cbn. unfold fprintf. rewrite !Hfail. cbn.
  destruct (i mod 4 =? 0)%Z; rewrite ?Hfail; cbn; apply IH.
Qed.

(** C8, as the code has it: [write_ppm] never fails on account of the length
    of the output name.  It keeps the first 30 characters of the name (the
    whole name when it has no more), creates the file under that name and
    touches no other file, and succeeds exactly when that file opens. *)
Theorem write_ppm_name_cut (E : env) (base : string) (i : Z)
    (palette : list palette_entry) (data : list byte) (wd ht : byte) (w : world) :
  ppm_name base i = string_take 30 (ppm_full_name base i) /\
  (String.length (ppm_full_name base i) <= 30 ->
   ppm_name base i = ppm_full_name base i) /\
  (write_ppm E base i palette data wd ht w).1 = fopen_ok E w (ppm_name base i) /\
  (fopen_ok E w (ppm_name base i) = true ->
   is_Some (files (write_ppm E base i palette data wd ht w).2 !! ppm_name base i)) /\
  (forall q, q <> ppm_name base i ->
     files (write_ppm E base i palette data wd ht w).2 !! q = files w !! q).
Proof.
  split; [apply ppm_name_take|].
  split; [intros Hl; rewrite ppm_name_take; by apply string_take_all|].
  split; [apply write_ppm_status|].
  split.
  - intros Hopen. unfold write_ppm, fopen_w. rewrite Hopen. cbn.
    apply ppm_pixels_is_Some, fprintf_is_Some. cbn.
    rewrite lookup_insert_eq. by eexists.
  - by destruct (write_ppm_touches E base i palette data wd ht w)
      as (_ & _ & _ & _ & H).
Qed.

Lemma write_ppm_name_cut_witness :
  ppm_name "city.spr" 7 = "city.spr_007.ppm" /\
  is_Some (files (write_ppm E_ok "city.spr" 7 gray_palette [x01] x01 x01
                    (world_with "city.spr" [])).2 !! ppm_name "city.spr" 7).
Proof.
  destruct (write_ppm_name_cut E_ok "city.spr" 7 gray_palette [x01] x01 x01
              (world_with "city.spr" [])) as (_ & H1 & _ & H2 & _).
  split; [apply H1; vm_compute; lia|apply H2; reflexivity].
Defined.

(** C8, as the claim has it, fails on a base name of 24 characters: the
    whole name has 32 characters, [write_ppm] reports success, and the file
    it creates bears the first 30 characters of the name; no file bears the
    whole name and no error is printed. *)
Lemma write_ppm_name_cut_counterexample :
  String.length (ppm_full_name "quarantine_level_one.spr" 0) = 32 /\
  (write_ppm E_ok "quarantine_level_one.spr" 0 gray_palette [x01] x01 x01
     (world_with "quarantine_level_one.spr" [])).1 = true /\
  files (write_ppm E_ok "quarantine_level_one.spr" 0 gray_palette [x01] x01 x01
           (world_with "quarantine_level_one.spr" [])).2
    !! "quarantine_level_one.spr_000.p"
  = Some (bytes_of (ppm_text gray_palette [x01] x01 x01)) /\
  files (write_ppm E_ok "quarantine_level_one.spr" 0 gray_palette [x01] x01 x01
           (world_with "quarantine_level_one.spr" [])).2
    !! ppm_full_name "quarantine_level_one.spr" 0 = None /\
  err (write_ppm E_ok "quarantine_level_one.spr" 0 gray_palette [x01] x01 x01
         (world_with "quarantine_level_one.spr" [])).2 = [].
Proof. repeat split; vm_compute; reflexivity. Qed.

(** C10: [write_ppm] returns success exactly when the output file opens:
    its status is the outcome of [fopen], whatever the oracle of the
    formatted writes says; even when every formatted write fails it returns
    success, and leaves an empty file. *)
Theorem write_ppm_ignores_write_results (limit : nat)
    (mem : world -> Z -> bool) (can_open can_write : world -> string -> bool)
    (base : string) (i : Z) (palette : list palette_entry) (data : list byte)
    (wd ht : byte) (w : world) :
  (write_ppm (Env limit mem can_open can_write) base i palette data wd ht w).1
  = can_open w (ppm_name base i) /\
  (write_ppm (Env limit mem (fun _ _ => true) (fun _ _ => false))
     base i palette data wd ht w).1 = true /\
  files (write_ppm (Env limit mem (fun _ _ => true) (fun _ _ => false))
           base i palette data wd ht w).2 !! ppm_name base i = Some [].
Proof.
  split; [apply write_ppm_status|].
  split; [apply write_ppm_status|].
  unfold write_ppm, fopen_w. cbn.
  rewrite ppm_pixels_all_fail by done. cbn. apply lookup_insert_eq.
Qed.

Lemma decode_spr_partial_failure_witness :
  (decode_spr E_ok "a.spr" gray_palette
     (world_with "a.spr" [x02; x02; x01; x01; x01; x0a])).1 = false /\
  msg_pixel_read 2 "a.spr"
  ∈ err (decode_spr E_ok "a.spr" gray_palette
           (world_with "a.spr" [x02; x02; x01; x01; x01; x0a])).2.
Proof.
  destruct (decode_spr_partial_failure E_ok "a.spr" gray_palette
              (world_with "a.spr" [x02; x02; x01; x01; x01; x0a])
              3 2 [x02; x01; x01; x01]
              (set_fdt (<[3%Z := ("a.spr", 5)]> console)
                 (printf ("Number of sprites in file: 2" +:+ nl)
                    (world_with "a.spr" [x02; x02; x01; x01; x01; x0a]))))
    as (_ & Hshort & _).
  - vm_compute; reflexivity.
  - destruct (Hshort 0) as (_ & _ & Hst & Hmsg).
    + vm_compute; lia.
    + split; [reflexivity|]. split; [reflexivity|]. vm_compute. discriminate.
    + split; [exact Hst|exact Hmsg].
Defined.

(** * Further properties *)

(** ** linearize_planar_data, beyond multiples of four *)

(** X1: for any pixel count [n] and buffers of at least [n] bytes,
    [linearize_planar_data] converts the first [4 * (n / 4)] bytes and
    leaves every later byte of the linear buffer as it was: when [n] is not a
    multiple of four, the last [n mod 4] pixels are not converted. *)
Theorem linearize_planar_data_remainder (planar linear : list byte) (n : nat) :
  n <= length planar -> n <= length linear ->
  exists out,
    linearize_planar_data planar linear n = Some out /\
    length out = length linear /\
    (forall k p, k < 4 -> p < n / 4 ->
       out !! (4 * p + k) = planar !! (k * (n / 4) + p)) /\
    (forall j, 4 * (n / 4) <= j -> out !! j = linear !! j).
Proof.
  intros Hp Hl.
  assert (Hsz : 4 * (n / 4) <= n) by (apply Nat.Div0.mul_div_le).
  unfold linearize_planar_data.
  destruct (linearize_planes_spec planar (n / 4)
              ltac:(unfold MODEX_PLANES; lia) 4 0 linear)
    as (out & Ho & Hlen & Hin & Hout);
    [unfold MODEX_PLANES; lia|unfold MODEX_PLANES; lia|].
  exists out. split; [done|]. split; [done|]. split.
  - intros k p Hk Hq. apply Hin; lia.
  - intros j Hj. apply Hout. unfold MODEX_PLANES. intros k' q Hk' Hq. lia.
Qed.

Lemma linearize_planar_data_remainder_witness :
  exists out,
    linearize_planar_data [x0a; x0b; x0c; x0d; x1a; x1b] (replicate 6 xff) 6
    = Some out /\ out !! 4 = Some xff /\ out !! 5 = Some xff.
Proof.
  destruct (linearize_planar_data_remainder
              [x0a; x0b; x0c; x0d; x1a; x1b] (replicate 6 xff) 6)
    as (out & Ho & _ & _ & Htail); [cbn; lia|cbn; lia|].
  exists out. split; [exact Ho|].
  split; rewrite Htail by (cbn; lia); reflexivity.
Defined.

(** X2: for a pixel count that is a multiple of four, the result of
    [linearize_planar_data] does not depend on what the linear buffer held
    before: every byte of it is written. *)
Theorem linearize_planar_data_overwrites (planar linear1 linear2 : list byte)
    (n : nat) :
  n mod 4 = 0 -> length planar = n -> length linear1 = n -> length linear2 = n ->
  linearize_planar_data planar linear1 n = linearize_planar_data planar linear2 n /\
  is_Some (linearize_planar_data planar linear1 n).
Proof.
  intros Hn Hp H1 H2.
  assert (Hsz : 4 * (n / 4) <= n) by (apply Nat.Div0.mul_div_le).
  unfold linearize_planar_data.
  destruct (linearize_planes_spec planar (n / 4)
              ltac:(unfold MODEX_PLANES; lia) 4 0 linear1)
    as (o1 & E1 & L1 & I1 & _);
    [unfold MODEX_PLANES; lia|unfold MODEX_PLANES; lia|].
  destruct (linearize_planes_spec planar (n / 4)
              ltac:(unfold MODEX_PLANES; lia) 4 0 linear2)
    as (o2 & E2 & L2 & I2 & _);
    [unfold MODEX_PLANES; lia|unfold MODEX_PLANES; lia|].
  unfold MODEX_PLANES in *.
  rewrite E1, E2. split; [|by eexists]. f_equal.
  apply list_eq. intros j.
  destruct (decide (j < n)) as [Hj|Hj].
  - assert (Hdiv : n = 4 * (n / 4))
      by (pose proof (Nat.div_mod_eq n 4); lia).
    pose proof (Nat.div_mod_eq j 4) as Hjd.
    pose proof (Nat.mod_upper_bound j 4 ltac:(lia)) as Hjm.
    rewrite Hjd.
    rewrite I1, I2; [done| | | |]; try lia; apply Nat.Div0.div_lt_upper_bound; lia.
  - rewrite !lookup_ge_None_2; [done|lia|lia].
Qed.

Lemma linearize_planar_data_overwrites_witness :
  linearize_planar_data [x0a; x0b; x0c; x0d] (replicate 4 x00) 4
  = linearize_planar_data [x0a; x0b; x0c; x0d] (replicate 4 xff) 4.
Proof.
  refine (proj1 (linearize_planar_data_overwrites
                   [x0a; x0b; x0c; x0d] (replicate 4 x00) (replicate 4 xff) 4
                   _ _ _ _)); reflexivity.
Defined.

(** ** read_palette: the buffer and the world *)

Lemma fill_length (buf got : list byte) :
  length got <= length buf -> length (fill buf got) = length buf.
Proof.
  intros H. unfold fill. rewrite length_app, length_drop. lia.
Qed.

Lemma fill_drop (buf got : list byte) (k : nat) :
  length got <= k -> drop k (fill buf got) = drop k buf.
Proof.
  intros H. unfold fill. rewrite drop_app_ge by done. rewrite drop_drop.
  f_equal. lia.
Qed.

(** What [read_palette] does when the file does not open on a descriptor it
    accepts. *)
Lemma read_palette_not_opened (E : env) (filename : string) (buf : list byte)
    (w : world) :
  ((sys_open E filename w).1 <= 0)%Z ->
  read_palette E filename buf w
  = (false, buf, eprintf (msg_open filename) (sys_open E filename w).2).
Proof.
  intros Hfd. unfold read_palette.
  destruct (sys_open E filename w) as [fd w1]. cbn [fst snd] in *.
  by rewrite (proj2 (Z.ltb_ge 0 fd) Hfd).
Qed.

Lemma sys_open_files (E : env) (path : string) (w : world) :
  files (sys_open E path w).2 = files w /\
  streams (sys_open E path w).2 = streams w /\
  out (sys_open E path w).2 = out w /\
  err (sys_open E path w).2 = err w.
Proof.
  unfold sys_open. destruct (files w !! path); [|done].
  by destruct (lowest_free _ _).
Qed.

(** X3: [read_palette] writes into the first 768 bytes of the buffer only:
    a buffer of at least 768 bytes keeps its length and its bytes from
    offset 768 on, whatever the file holds; and the call creates or changes
    no file, opens no stream and prints nothing on stdout. *)
Theorem read_palette_buffer_bounds (E : env) (filename : string)
    (buf : list byte) (w : world) :
  768 <= length buf ->
  length (read_palette E filename buf w).1.2 = length buf /\
  drop 768 (read_palette E filename buf w).1.2 = drop 768 buf /\
  files (read_palette E filename buf w).2 = files w /\
  streams (read_palette E filename buf w).2 = streams w /\
  out (read_palette E filename buf w).2 = out w.
Proof.
  intros Hbuf.
  destruct (Z.ltb_spec 0 (sys_open E filename w).1) as [Hfd|Hfd].
  - destruct (sys_open_inv E filename w) as ([data Hdata] & _); [lia|].
    rewrite (read_palette_opened E filename buf w data Hdata Hfd). cbn zeta.
    assert (Hgot : length (take 768 (drop 13 data)) <= 768)
      by (rewrite length_take; lia).
    destruct (_ =? _)%Z; cbn [fst snd];
      (split; [apply fill_length; lia|]); (split; [by apply fill_drop|done]).
  - rewrite (read_palette_not_opened E filename buf w Hfd). cbn [fst snd].
    destruct (sys_open_files E filename w) as (Hf & Hs & Ho & _).
    by rewrite <- Hf, <- Hs, <- Ho.
Qed.

Lemma read_palette_buffer_bounds_witness :
  drop 768 (read_palette E_ok "q.img" (replicate 770 xff)
              (world_with "q.img" (replicate 781 x2a))).1.2 = [xff; xff].
Proof.
  destruct (read_palette_buffer_bounds E_ok "q.img" (replicate 770 xff)
              (world_with "q.img" (replicate 781 x2a))) as (_ & H & _).
  - vm_compute; lia.
  - rewrite H. reflexivity.
Defined.

(** X4: on a palette file that opens but holds fewer than 781 bytes,
    [read_palette] fails and still overwrites the start of the buffer: the
    buffer then holds the bytes of the file from offset 13 on, followed by
    what it held before at the later positions. *)
Theorem read_palette_short_file (E : env) (filename : string)
    (buf : list byte) (w : world) (data : list byte) :
  files w !! filename = Some data ->
  (0 < (sys_open E filename w).1)%Z ->
  length data < 781 ->
  (read_palette E filename buf w).1.1 = false /\
  (read_palette E filename buf w).1.2
  = drop 13 data ++ drop (length data - 13) buf.
Proof.
  intros Hdata Hfd Hlen.
  rewrite (read_palette_opened E filename buf w data Hdata Hfd). cbn zeta.
  assert (Htake : take 768 (drop 13 data) = drop 13 data)
    by (apply take_ge; rewrite length_drop; lia).
  rewrite Htake.
  rewrite (proj2 (Z.eqb_neq _ _)) by (rewrite length_drop; lia).
  cbn [fst snd]. unfold fill. by rewrite length_drop.
Qed.

Lemma read_palette_short_file_witness :
  (read_palette E_ok "q.img" [xff; xff; xff]
     (world_with "q.img" (replicate 13 x00 ++ [x01; x02]))).1.2
  = [x01; x02; xff].
Proof.
  destruct (read_palette_short_file E_ok "q.img" [xff; xff; xff]
              (world_with "q.img" (replicate 13 x00 ++ [x01; x02]))
              (replicate 13 x00 ++ [x01; x02])) as [_ H].
  - vm_compute; reflexivity.
  - vm_compute; reflexivity.
  - vm_compute; lia.
  - rewrite H. reflexivity.
Defined.

(** ** The palette as an array of entries *)

Lemma palette_bytes_at (entries : list palette_entry) (k : nat) (e : palette_entry) :
  entries !! k = Some e -> pal_at (palette_bytes entries) k = e.
Proof.
  unfold pal_at. revert k. induction entries as [|a l IH]; intros k Hk; [done|].
  destruct k as [|k].
  - injection Hk as ->. by destruct e.
  - replace (3 * S k) with (S (S (S (3 * k)))) by lia.
    apply (IH k) in Hk. exact Hk.
Qed.

(** X5: the cast of [main] from the raw palette bytes to the entries loses
    nothing: on the bytes of 256 entries, red, green and blue in turn, it
    gives these 256 entries back, in order. *)
Theorem cast_palette_bytes (entries : list palette_entry) :
  length entries = 256 -> cast_palette (palette_bytes entries) = entries.
Proof.
  intros Hlen. apply list_eq. intros k.
  destruct (decide (k < 256)) as [Hk|Hk].
  - rewrite cast_palette_lookup by done.
    destruct (lookup_lt_is_Some_2 entries k) as [e He]; [lia|].
    by rewrite He, (palette_bytes_at entries k e He).
  - rewrite !lookup_ge_None_2; [done|lia|].
    unfold cast_palette, PALETTE_SIZE_COLORS. rewrite length_map, length_seq. lia.
Qed.

Lemma cast_palette_bytes_witness :
  cast_palette (palette_bytes gray_palette) = gray_palette.
Proof. apply cast_palette_bytes. reflexivity. Defined.

(** ** The pixel count of a sprite *)

(** X6: the pixel count [decode_spr] computes for a directory entry is the
    product of its two bytes, without wrap-around even in 16 bits; it is at
    most 65025, and it is positive exactly for the entries the loop
    processes (both dimensions nonzero). *)
Theorem entry_count_bounds (width_height_data : list byte) (i : nat) :
  entry_count width_height_data i
  = (byte_val (width (wh_at width_height_data i))
     * byte_val (height (wh_at width_height_data i)))%Z /\
  uint16 (entry_count width_height_data i) = entry_count width_height_data i /\
  (0 <= entry_count width_height_data i <= 65025)%Z /\
  (entry_nonempty width_height_data i = true
   <-> (0 < entry_count width_height_data i)%Z).
Proof.
  unfold entry_count, entry_nonempty. rewrite uint_fast16_product.
  pose proof (byte_val_range (width (wh_at width_height_data i))) as Hw.
  pose proof (byte_val_range (height (wh_at width_height_data i))) as Hh.
  split; [done|]. split.
  { unfold uint16, wrap. apply Z.mod_small. change (2 ^ 16)%Z with 65536%Z. nia. }
  split; [nia|].
  rewrite andb_true_iff, !nonzero_true. split.
  - intros [H1 H2]. nia.
  - intros H. split; intros H0; rewrite H0 in H; lia.
Qed.

(** ** decode_spr: what it touches, and when it reports *)

Lemma sys_read_frame (fd count : Z) (w : world) :
  files (sys_read fd count w).2 = files w /\
  streams (sys_read fd count w).2 = streams w /\
  out (sys_read fd count w).2 = out w /\
  err (sys_read fd count w).2 = err w.
Proof.
  unfold sys_read. destruct (fdt w !! fd) as [[p off]|]; [|done].
  by destruct (files w !! p).
Qed.

Lemma sprite_body_frame (E : env) (fd : Z) (filename : string)
    (pal_data : list palette_entry) (whd : list byte) (i : nat) (st : bool)
    (w : world) :
  streams (sprite_body E fd filename pal_data whd (Z.of_nat i) st w).2 = streams w /\
  out (sprite_body E fd filename pal_data whd (Z.of_nat i) st w).2 = out w /\
  forall q, q <> ppm_name filename (Z.of_nat i) ->
    files (sprite_body E fd filename pal_data whd (Z.of_nat i) st w).2 !! q
    = files w !! q.
Proof.
  rewrite sprite_body_unfold.
  destruct (entry_nonempty whd i); [|done].
  destruct (malloc_ok E w _); [|done].
  unfold payload_read.
  destruct (sys_read_frame fd (entry_count whd i) w) as (Hf & Hs & Ho & _).
  destruct (_ =? _)%Z; cbn [fst snd].
  - destruct (write_ppm_touches E filename (Z.of_nat i) pal_data
                (fill (replicate (Z.to_nat (entry_count whd i)) x00)
                   (sys_read fd (entry_count whd i) w).1.2)
                (width (wh_at whd i)) (height (wh_at whd i))
                (sys_read fd (entry_count whd i) w).2)
      as (_ & Hs' & Ho' & _ & Hother).
    rewrite Hs', Ho', Hs, Ho. split; [done|]. split; [done|].
    intros q Hq. by rewrite Hother, Hf.
  - cbn. by rewrite Hs, Ho, Hf.
Qed.

Lemma sprite_loop_frame (E : env) (fd : Z) (filename : string)
    (pal_data : list palette_entry) (whd : list byte) (k : nat) (st : bool)
    (w : world) :
  streams (sprite_loop E k fd filename pal_data whd 0 st w).2 = streams w /\
  out (sprite_loop E k fd filename pal_data whd 0 st w).2 = out w /\
  forall q, (forall j, j < k -> q <> ppm_name filename (Z.of_nat j)) ->
    files (sprite_loop E k fd filename pal_data whd 0 st w).2 !! q = files w !! q.
Proof.
  induction k as [|k IH]; [done|].
  destruct IH as (IHs & IHo & IHf).
  rewrite sprite_loop_last.
  destruct (sprite_body_frame E fd filename pal_data whd k
              (sprite_loop E k fd filename pal_data whd 0 st w).1
              (sprite_loop E k fd filename pal_data whd 0 st w).2)
    as (Hs & Ho & Hf).
  rewrite Hs, Ho. split; [done|]. split; [done|].
  intros q Hq. rewrite Hf by (apply Hq; lia). apply IHf. intros j Hj. apply Hq. lia.
Qed.

(** X7: [decode_spr] creates or changes no file but the outputs of the
    sprites of the archive: a file whose name is not one of the names
    [write_ppm] builds for the sprites below the count keeps its contents,
    whatever fails; and no stdio stream is left open. *)
Theorem decode_spr_touches_outputs_only (E : env) (filename : string)
    (pal_data : list palette_entry) (w : world) (q : string) :
  (forall j : nat, j < 255 -> q <> ppm_name filename (Z.of_nat j)) ->
  files (decode_spr E filename pal_data w).2 !! q = files w !! q /\
  streams (decode_spr E filename pal_data w).2 = streams w.
Proof.
  intros Hq. unfold decode_spr.
  destruct (sys_open_files E filename w) as (Hf0 & Hs0 & _).
  destruct (sys_open E filename w) as [fd w1]. cbn [fst snd] in *.
  destruct (0 <? fd)%Z; [|cbn; by rewrite Hf0, Hs0].
  destruct (sys_read_frame fd 1 w1) as (Hf1 & Hs1 & _).
  destruct (sys_read fd 1 w1) as [[n got] w2]. cbn [fst snd] in *.
  destruct (n =? 1)%Z; [|cbn; by rewrite Hf1, Hs1, Hf0, Hs0].
  set (w3 := printf _ w2).
  assert (Hf3 : files w3 = files w) by (subst w3; cbn; by rewrite Hf1, Hf0).
  assert (Hs3 : streams w3 = streams w) by (subst w3; cbn; by rewrite Hs1, Hs0).
  clearbody w3.
  destruct (malloc E w3 _) as [whd|]; [|cbn; by rewrite Hf3, Hs3].
  destruct (sys_read_frame fd (uint16 (byte_val (nth 0 got x00) * 2)) w3)
    as (Hf4 & Hs4 & _).
  destruct (sys_read fd _ w3) as [[n' got'] w4]. cbn [fst snd] in *.
  destruct (n' =? _)%Z; [|cbn; by rewrite Hf4, Hs4, Hf3, Hs3].
  destruct (sprite_loop_frame E fd filename pal_data (fill whd got')
              (Z.to_nat (byte_val (nth 0 got x00))) true w4) as (Hs & _ & Hf).
  rewrite Hs, Hs4, Hs3. split; [|done]. rewrite Hf; [by rewrite Hf4, Hf3|].
  intros j Hj. apply Hq. pose proof (byte_val_range (nth 0 got x00)). lia.
Qed.

Lemma decode_spr_touches_outputs_only_witness :
  files (decode_spr E_ok "city.spr" gray_palette
           (world_with_two "city.spr" (archive x02 two_sprites)
              "notes.txt" [x41])).2 !! "notes.txt" = Some [x41].
Proof.
  rewrite (proj1 (decode_spr_touches_outputs_only E_ok "city.spr" gray_palette
                    (world_with_two "city.spr" (archive x02 two_sprites)
                       "notes.txt" [x41]) "notes.txt"
                    ltac:(intros j Hj Heq;
                          apply (f_equal String.length) in Heq;
                          rewrite ppm_name_length in Heq by lia;
                          vm_compute in Heq; discriminate))).
  reflexivity.
Defined.

Lemma write_ppm_err (E : env) (base : string) (i : Z)
    (palette : list palette_entry) (data : list byte) (wd ht : byte) (w : world) :
  err (write_ppm E base i palette data wd ht w).2
  = if (write_ppm E base i palette data wd ht w).1 then err w
    else err w ++ [msg_ppm_open (ppm_name base i)].
Proof.
  unfold write_ppm, fopen_w. destruct (fopen_ok E w (ppm_name base i)); [|done].
  cbn. by rewrite ppm_pixels_err, fprintf_err.
Qed.

(** One turn of the loop stays successful exactly when it prints nothing on
    stderr. *)
Lemma sprite_body_reports (E : env) (fd : Z) (filename : string)
    (pal_data : list palette_entry) (whd : list byte) (i : nat) (st : bool)
    (w : world) :
  exists more,
    err (sprite_body E fd filename pal_data whd (Z.of_nat i) st w).2
    = err w ++ more /\
    ((sprite_body E fd filename pal_data whd (Z.of_nat i) st w).1 = true
     <-> st = true /\ more = []).
Proof.
  rewrite sprite_body_unfold.
  destruct (entry_nonempty whd i);
    [|exists []; rewrite app_nil_r; cbn; by intuition].
  destruct (malloc_ok E w _); [|eexists; split; [done|]; cbn; by intuition].
  unfold payload_read.
  destruct (sys_read_frame fd (entry_count whd i) w) as (_ & _ & _ & He).
  destruct (_ =? _)%Z; cbn [fst snd].
  - rewrite write_ppm_err, He.
    destruct (write_ppm _ _ _ _ _ _ _ _).1.
    + exists []. rewrite app_nil_r. by intuition.
    + eexists. split; [done|]. by intuition.
  - eexists. cbn. rewrite He. split; [done|]. by intuition.
Qed.

Lemma sprite_loop_reports (E : env) (fd : Z) (filename : string)
    (pal_data : list palette_entry) (whd : list byte) (k : nat) (st : bool)
    (w : world) :
  exists more,
    err (sprite_loop E k fd filename pal_data whd 0 st w).2 = err w ++ more /\
    ((sprite_loop E k fd filename pal_data whd 0 st w).1 = true
     <-> st = true /\ more = []).
Proof.
  induction k as [|k (m1 & He1 & Hst1)].
  - exists []. cbn. rewrite app_nil_r. by intuition.
  - rewrite sprite_loop_last.
    destruct (sprite_body_reports E fd filename pal_data whd k
                (sprite_loop E k fd filename pal_data whd 0 st w).1
                (sprite_loop E k fd filename pal_data whd 0 st w).2)
      as (m2 & He2 & Hst2).
    exists (m1 ++ m2). rewrite He2, He1, app_assoc. split; [done|].
    rewrite Hst2, Hst1. split.
    + intros [[-> ->] ->]. done.
    + intros [-> [-> ->]%app_eq_nil]. done.
Qed.

(** X8: [decode_spr] returns success exactly when it printed nothing on
    stderr: every failure it returns comes with an error message, and every
    error message with a failure. *)
Theorem decode_spr_fails_iff_reports (E : env) (filename : string)
    (pal_data : list palette_entry) (w : world) :
  (exists more, err (decode_spr E filename pal_data w).2 = err w ++ more) /\
  ((decode_spr E filename pal_data w).1 = true
   <-> err (decode_spr E filename pal_data w).2 = err w).
Proof.
  assert (Hgen : exists more,
            err (decode_spr E filename pal_data w).2 = err w ++ more /\
            ((decode_spr E filename pal_data w).1 = true <-> more = [])).
  { unfold decode_spr.
    destruct (sys_open_files E filename w) as (_ & _ & _ & He0).
    destruct (sys_open E filename w) as [fd w1]. cbn [fst snd] in *.
    destruct (0 <? fd)%Z;
      [|eexists; cbn; rewrite He0; split; [done|by intuition]].
    destruct (sys_read_frame fd 1 w1) as (_ & _ & _ & He1).
    destruct (sys_read fd 1 w1) as [[n got] w2]. cbn [fst snd] in *.
    destruct (n =? 1)%Z;
      [|eexists; cbn; rewrite He1, He0; split; [done|by intuition]].
    set (w3 := printf _ w2).
    assert (He3 : err w3 = err w) by (subst w3; cbn; by rewrite He1, He0).
    clearbody w3.
    destruct (malloc E w3 _) as [whd|];
      [|eexists; cbn; rewrite He3; split; [done|by intuition]].
    destruct (sys_read_frame fd (uint16 (byte_val (nth 0 got x00) * 2)) w3)
      as (_ & _ & _ & He4).
    destruct (sys_read fd _ w3) as [[n' got'] w4]. cbn [fst snd] in *.
    destruct (n' =? _)%Z;
      [|eexists; cbn; rewrite He4, He3; split; [done|by intuition]].
    destruct (sprite_loop_reports E fd filename pal_data (fill whd got')
                (Z.to_nat (byte_val (nth 0 got x00))) true w4)
      as (m & He & Hst).
    exists m. rewrite He, He4, He3. split; [done|]. rewrite Hst. by intuition. }
  destruct Hgen as (more & He & Hst). split; [by exists more|].
  rewrite Hst, He. split.
  - intros ->. by rewrite app_nil_r.
  - intros H. rewrite <- (app_nil_r (err w)) in H at 2.
    by apply app_inv_head in H.
Qed.

(** ** decode_spr: the errors before the loop *)

(** X9: the three ways [decode_spr] fails before its loop.  A missing
    archive gives the open error and changes nothing else; an archive of no
    byte gives the error on the sprite count; an archive whose directory is
    cut short gives the error on the header, with the size that was asked
    for.  In each case the status is failure and no file is created or
    changed. *)
Theorem decode_spr_header_errors (E : env) (filename : string)
    (pal_data : list palette_entry) (w : world) :
  (files w !! filename = None ->
   decode_spr E filename pal_data w = (false, eprintf (msg_open filename) w)) /\
  (files w !! filename = Some [] -> (0 < (sys_open E filename w).1)%Z ->
   (decode_spr E filename pal_data w).1 = false /\
   err (decode_spr E filename pal_data w).2 = err w ++ [msg_count_read filename] /\
   files (decode_spr E filename pal_data w).2 = files w) /\
  (forall count rest,
     files w !! filename = Some (count :: rest) ->
     (0 < (sys_open E filename w).1)%Z ->
     (forall w' m, malloc_ok E w' m = true) ->
     length rest < 2 * Z.to_nat (byte_val count) ->
     (decode_spr E filename pal_data w).1 = false /\
     err (decode_spr E filename pal_data w).2
     = err w ++ [msg_header_read (byte_val count * 2) filename] /\
     files (decode_spr E filename pal_data w).2 = files w).
Proof.
  split; [|split].
  - intros Hnone. unfold decode_spr, sys_open. by rewrite Hnone.
  - intros Hdata Hfd. unfold decode_spr.
    destruct (sys_open_inv E filename w) as (_ & _ & Hw); [lia|].
    destruct (sys_open E filename w) as [fd w1]. cbn [fst snd] in Hfd, Hw |- *.
    subst w1. rewrite (proj2 (Z.ltb_lt 0 fd) Hfd).
    by rewrite (sys_read_set fd 1 w filename 0 _ Hdata).
  - intros count rest Hdata Hfd Hmem Hlen. unfold decode_spr.
    destruct (sys_open_inv E filename w) as (_ & _ & Hw); [lia|].
    destruct (sys_open E filename w) as [fd w1]. cbn [fst snd] in Hfd, Hw |- *.
    subst w1. rewrite (proj2 (Z.ltb_lt 0 fd) Hfd).
    rewrite (sys_read_set fd 1 w filename 0 _ Hdata).
    change (take (Z.to_nat 1) (drop 0 (count :: rest))) with [count].
    change (Z.of_nat (length [count]) =? 1)%Z with true.
    change (nth 0 [count] x00) with count.
    change (0 + length [count]) with 1.
    cbv beta iota zeta.
    rewrite uint16_header. unfold malloc. rewrite Hmem.
    set (msg := "Number of sprites in file: " +:+ fmt_d (byte_val count) +:+ nl).
    change (printf msg (set_fdt (<[fd:=(filename, 1)]> (fdt w)) w))
      with (set_fdt (<[fd:=(filename, 1)]> (fdt (printf msg w))) (printf msg w)).
    rewrite (sys_read_set fd _ (printf msg w) filename 1 (count :: rest) Hdata).
    change (drop 1 (count :: rest)) with rest.
    pose proof (byte_val_range count) as Hc.
    rewrite (proj2 (Z.eqb_neq _ _)) by (rewrite length_take; lia).
    done.
Qed.

Lemma decode_spr_header_errors_witness :
  err (decode_spr E_ok "a.spr" [] (world_with "a.spr" [x03; x02; x01; x00])).2
  = [msg_header_read 6 "a.spr"].
Proof.
  destruct (decode_spr_header_errors E_ok "a.spr" []
              (world_with "a.spr" [x03; x02; x01; x00])) as (_ & _ & H).
  destruct (H x03 [x02; x01; x00]) as (_ & He & _).
  - reflexivity.
  - vm_compute; reflexivity.
  - intros; reflexivity.
  - vm_compute; lia.
  - exact He.
Defined.

(** ** decode_spr: after a short read *)

Lemma write_ppm_is_Some (E : env) (base : string) (i : Z)
    (palette : list palette_entry) (data : list byte) (wd ht : byte) (w : world)
    (q : string) :
  is_Some (files w !! q) ->
  is_Some (files (write_ppm E base i palette data wd ht w).2 !! q).
Proof.
  intros Hq. unfold write_ppm, fopen_w.
  destruct (fopen_ok E w (ppm_name base i)); [|done]. cbn.
  apply ppm_pixels_is_Some, fprintf_is_Some. cbn.
  destruct (decide (ppm_name base i = q)) as [->|Hne].
  - rewrite lookup_insert_eq. by eexists.
  - by rewrite lookup_insert_ne.
Qed.

(** The descriptor [fd] is open on the file [f], which exists. *)
Lemma sprite_body_on (E : env) (fd : Z) (filename : string)
    (pal_data : list palette_entry) (whd : list byte) (i : Z) (st : bool)
    (w : world) :
  (exists off data, fdt w !! fd = Some (filename, off)
                    /\ files w !! filename = Some data) ->
  exists off data,
    fdt (sprite_body E fd filename pal_data whd i st w).2 !! fd
    = Some (filename, off) /\
    files (sprite_body E fd filename pal_data whd i st w).2 !! filename = Some data.
Proof.
  intros (off & data & Hfd & Hfile). unfold sprite_body.
  destruct (nonzero _ && nonzero _); [|by exists off, data].
  destruct (malloc E w _) as [buf|]; [|by exists off, data].
  rewrite (sys_read_at _ _ _ _ _ _ Hfd Hfile).
  set (got := take _ _). set (w1 := set_fdt _ w).
  assert (Hfd1 : fdt w1 !! fd = Some (filename, off + length got))
    by (subst w1; cbn; apply lookup_insert_eq).
  assert (Hfile1 : files w1 !! filename = Some data) by done.
  clearbody w1.
  destruct (_ =? _)%Z; [|by exists (off + length got), data].
  pose proof (write_ppm_touches E filename i pal_data (fill buf got)
                (width (wh_at whd (Z.to_nat i))) (height (wh_at whd (Z.to_nat i))) w1)
    as (Hf & _).
  pose proof (write_ppm_is_Some E filename i pal_data (fill buf got)
                (width (wh_at whd (Z.to_nat i))) (height (wh_at whd (Z.to_nat i)))
                w1 filename ltac:(by eexists)) as [data' Hd'].
  destruct (write_ppm _ _ _ _ _ _ _ _) as [ok w2]. cbn [fst snd] in *.
  exists (off + length got), data'. by rewrite Hf.
Qed.

Lemma sprite_loop_on (E : env) (fd : Z) (filename : string)
    (pal_data : list palette_entry) (whd : list byte) (todo : nat) (i : Z)
    (st : bool) (w : world) :
  (exists off data, fdt w !! fd = Some (filename, off)
                    /\ files w !! filename = Some data) ->
  exists off data,
    fdt (sprite_loop E todo fd filename pal_data whd i st w).2 !! fd
    = Some (filename, off) /\
    files (sprite_loop E todo fd filename pal_data whd i st w).2 !! filename
    = Some data.
Proof.
  revert i st w. induction todo as [|todo IH]; intros i st w Hon; [done|].
  rewrite sprite_loop_S. by apply IH, sprite_body_on.
Qed.

Lemma entry_count_pos (whd : list byte) (i : nat) :
  entry_nonempty whd i = true -> (0 < entry_count whd i)%Z.
Proof.
  unfold entry_nonempty, entry_count. rewrite uint_fast16_product.
  intros [H1%nonzero_true H2%nonzero_true]%andb_prop.
  pose proof (byte_val_range (width (wh_at whd i))).
  pose proof (byte_val_range (height (wh_at whd i))). nia.
Qed.

(** With the descriptor at or past the end of the archive, the loop creates
    and changes no file. *)
Lemma sprite_loop_at_end (E : env) (fd : Z) (filename : string)
    (pal_data : list palette_entry) (whd : list byte) (todo : nat) :
  forall (i : nat) (st : bool) (w : world) (off : nat) (data : list byte),
    fdt w !! fd = Some (filename, off) -> files w !! filename = Some data ->
    length data <= off ->
    files (sprite_loop E todo fd filename pal_data whd (Z.of_nat i) st w).2
    = files w.
Proof.
  induction todo as [|todo IH]; intros i st w off data Hfd Hfile Hend; [done|].
  rewrite sprite_loop_S, sprite_body_unfold.
  replace (Z.of_nat i + 1)%Z with (Z.of_nat (S i)) by lia.
  destruct (entry_nonempty whd i) eqn:Hne; [|by eapply IH].
  destruct (malloc_ok E w _); [|cbn [fst snd]; by erewrite IH].
  unfold payload_read. rewrite (sys_read_at _ _ _ _ _ _ Hfd Hfile).
  rewrite (drop_ge data off) by done. rewrite take_nil. cbn [fst snd length].
  rewrite (proj2 (Z.eqb_neq _ _)) by (apply entry_count_pos in Hne; lia).
  cbn [fst snd]. erewrite IH; [done| |done|done].
  cbn. rewrite lookup_insert_eq. do 2 f_equal. lia.
Qed.

(** X10: once the read of a payload comes back short, [decode_spr] creates
    and changes no file any more: the descriptor is at the end of the
    archive, so the read of every later sprite comes back empty, and none of
    them is written from misaligned bytes. *)
Theorem short_read_stops_output (E : env) (filename : string)
    (pal_data : list palette_entry) (w : world)
    (fd n : Z) (whd : list byte) (w2 : world) (i : nat) :
  loop_entry E filename w = Some (fd, n, whd, w2) ->
  read_short E fd whd i (sprite_loop E i fd filename pal_data whd 0 true w2).2 ->
  forall k, i <= k ->
    files (sprite_loop E k fd filename pal_data whd 0 true w2).2
    = files (sprite_loop E i fd filename pal_data whd 0 true w2).2.
Proof.
  intros Hentry (Hne & Hmem & Hshort) k Hk.
  destruct (Nat.eq_dec k i) as [->|Hki]; [done|].
  (* the archive is open on [fd] when the loop starts, and stays so *)
  assert (Hon2 : exists off data, fdt w2 !! fd = Some (filename, off)
                                  /\ files w2 !! filename = Some data).
  { destruct (loop_entry_inv _ _ _ _ _ _ _ Hentry) as (Hfd & count & rest & Hfile).
    rewrite (loop_entry_opened E filename w count rest Hfile Hfd) in Hentry.
    destruct (malloc_ok E _ _); [|done]. destruct (decide _); [|done].
    injection Hentry as <- <- <- <-.
    eexists _, _. split; [cbn; apply lookup_insert_eq|exact Hfile]. }
  destruct (sprite_loop_on E fd filename pal_data whd i 0 true w2 Hon2)
    as (off & data & Hfd & Hfile).
  replace k with (S i + (k - S i)) by lia.
  rewrite sprite_loop_split, Z.add_0_l.
  rewrite sprite_loop_last, sprite_body_unfold, Hne, Hmem.
  rewrite (proj2 (Z.eqb_neq _ _) Hshort). cbn [fst snd].
  unfold payload_read in *.
  rewrite (sys_read_at _ _ _ _ _ _ Hfd Hfile) in Hshort |- *. cbn [fst snd] in *.
  erewrite sprite_loop_at_end; [done| |exact Hfile|].
  - cbn. apply lookup_insert_eq.
  - rewrite length_take, length_drop in Hshort |- *.
    pose proof (entry_count_range whd i). lia.
Qed.

Lemma short_read_stops_output_witness :
  files (sprite_loop E_ok 2 3 "a.spr" gray_palette [x02; x01; x01; x01] 0 true
           (set_fdt (<[3%Z := ("a.spr", 5)]> console)
              (printf ("Number of sprites in file: 2" +:+ nl)
                 (world_with "a.spr" [x02; x02; x01; x01; x01; x0a])))).2
  = files (world_with "a.spr" [x02; x02; x01; x01; x01; x0a]).
Proof.
  refine (short_read_stops_output E_ok "a.spr" gray_palette
            (world_with "a.spr" [x02; x02; x01; x01; x01; x0a])
            3 2 [x02; x01; x01; x01] _ 0 _ _ 2 _).
  - vm_compute; reflexivity.
  - split; [reflexivity|]. split; [reflexivity|]. vm_compute. discriminate.
  - lia.
Defined.

(** ** decode_spr: one output that does not open *)

(** The pixmap under the name, when the output opens and every write
    succeeds. *)
Lemma write_ppm_opened (E : env) (base : string) (i : Z)
    (palette : list palette_entry) (data : list byte) (wd ht : byte) (w : world) :
  fopen_ok E w (ppm_name base i) = true ->
  (forall w p, fprintf_ok E w p = true) ->
  length data = Z.to_nat (byte_val wd * byte_val ht) ->
  files (write_ppm E base i palette data wd ht w).2 !! ppm_name base i
  = Some (bytes_of (ppm_text palette data wd ht)).
Proof.
  intros Hopen Hok Hlen. unfold write_ppm, fopen_w. rewrite Hopen. cbn.
  rewrite uint_fast16_product, <- Hlen.
  set (w1 := set_streams _ _).
  assert (H1 : files (fprintf E (ppm_name base i) (ppm_header wd ht) w1).2
               !! ppm_name base i = Some ([] ++ bytes_of (ppm_header wd ht))).
  { apply fprintf_files; [done|]. subst w1. cbn. by rewrite lookup_insert_eq. }
  change 0%Z with (Z.of_nat 0).
  rewrite (ppm_pixels_text E _ palette data Hok (length data) 0 _ _ ltac:(lia) H1).
  rewrite drop_0, firstn_all. unfold ppm_text. by rewrite bytes_of_app.
Qed.

Section BestEffort.
Variables (E : env) (can : string -> bool).
Hypothesis mem_ok : forall w n, malloc_ok E w n = true.
Hypothesis open_can : forall w p, fopen_ok E w p = can p.
Hypothesis write_ok : forall w p, fprintf_ok E w p = true.

Lemma sprite_loop_best_effort (fd : Z) (filename : string)
    (pal_data : list palette_entry) (count : byte) (l : list sprite)
    (w2 : world) :
  String.length filename <= 26 ->
  Forall sprite_ok l -> length l <= 255 ->
  fdt w2 !! fd = Some (filename, 1 + 2 * length l) ->
  files w2 !! filename = Some (archive count l) ->
  forall k, k <= length l ->
    ((sprite_loop E k fd filename pal_data (directory l) 0 true w2).1 = true
     <-> forall j s, j < k -> l !! j = Some s -> s_empty s = false ->
           can (ppm_name filename (Z.of_nat j)) = true) /\
    forall j s, j < k -> l !! j = Some s -> s_empty s = false ->
      can (ppm_name filename (Z.of_nat j)) = true ->
      files (sprite_loop E k fd filename pal_data (directory l) 0 true w2).2
        !! ppm_name filename (Z.of_nat j)
      = Some (bytes_of (ppm_text pal_data (s_pixels s) (s_width s) (s_height s))).
Proof.
  intros Hname Hok Hcount Hfd Hfile.
  induction k as [|k IH]; intros Hk.
  { split; [split; [intros; lia|done]|intros; lia]. }
  destruct IH as [IHst IHfiles]; [lia|].
  destruct (lookup_lt_is_Some_2 l k) as [s Hs]; [lia|].
  assert (Hsok : sprite_ok s) by (by apply (Forall_lookup_1 _ _ _ _ Hok Hs)).
  pose proof (payloads_take_length l k) as Hpl.
  destruct (sprite_loop_offsets E fd filename pal_data (directory l)
              (archive count l) (1 + 2 * length l) mem_ok ltac:(lia) k true w2)
    as [Hkfd Hkfile]; [lia|done|done| |].
  { rewrite payload_before_archive by (done || lia).
    unfold archive. cbn [length]. rewrite length_app, directory_length. lia. }
  rewrite payload_before_archive in Hkfd by (done || lia).
  rewrite sprite_loop_last, sprite_body_unfold.
  pose proof (sprite_payload_length l k s Hs Hsok) as Hplen.
  destruct (entry_nonempty (directory l) k) eqn:Hne.
  - rewrite mem_ok. unfold payload_read.
    pose proof (entry_count_range (directory l) k) as Hc.
    assert (Hin : 1 + 2 * length l + length (payloads (take k l))
                  + Z.to_nat (entry_count (directory l) k)
                  <= length (archive count l)).
    { rewrite Hplen. unfold archive. cbn [length].
      rewrite length_app, directory_length, (payloads_split l k s Hs). lia. }
    rewrite (sys_read_full _ _ _ _ _ _ Hkfd Hkfile) by lia.
    rewrite Z.eqb_refl. cbn [fst snd].
    rewrite Hplen, (archive_payload count l k s Hs), fill_full by done.
    set (w3 := set_fdt _ _).
    assert (Hf3 : files w3 = files (sprite_loop E k fd filename pal_data
                                      (directory l) 0 true w2).2) by done.
    clearbody w3.
    rewrite write_ppm_status, open_can.
    destruct (write_ppm_touches E filename (Z.of_nat k) pal_data (s_pixels s)
                (width (wh_at (directory l) k)) (height (wh_at (directory l) k)) w3)
      as (_ & _ & _ & _ & Hother).
    assert (Hempty : s_empty s = false).
    { rewrite (entry_nonempty_archive l k s Hs) in Hne. by destruct (s_empty s). }
    split.
    + destruct (can (ppm_name filename (Z.of_nat k))) eqn:Hcan.
      * rewrite IHst. split.
        -- intros H j s' Hj Hs' Hne'. destruct (decide (j = k)) as [->|Hjk];
             [done|]. apply (H j s'); [lia|done|done].
        -- intros H j s' Hj. apply H. lia.
      * split; [done|]. intros H. rewrite <- Hcan.
        apply (H k s); [lia|done|done].
    + intros j s' Hj Hs' Hne' Hcan. destruct (decide (j = k)) as [->|Hjk].
      * assert (s' = s) by congruence. subst s'.
        rewrite write_ppm_opened; [by rewrite (directory_at l k s Hs)| | |].
        -- by rewrite open_can.
        -- done.
        -- rewrite (directory_at l k s Hs). exact Hsok.
      * rewrite Hother.
        -- rewrite Hf3. apply IHfiles; [lia|done|done|done].
        -- intros Heq. apply ppm_name_inj in Heq; lia.
  - assert (Hempty : s_empty s = true).
    { rewrite (entry_nonempty_archive l k s Hs) in Hne. by destruct (s_empty s). }
    split.
    + rewrite IHst. split.
      * intros H j s' Hj Hs' Hne'. destruct (decide (j = k)) as [->|Hjk].
        -- assert (s' = s) by congruence. subst s'. congruence.
        -- apply (H j s'); [lia|done|done].
      * intros H j s' Hj. apply H. lia.
    + intros j s' Hj Hs' Hne' Hcan. destruct (decide (j = k)) as [->|Hjk].
      * assert (s' = s) by congruence. subst s'. congruence.
      * apply IHfiles; [lia|done|done|done].
Qed.

(** X11: on a well-formed archive, when allocations and formatted writes
    succeed and only the opening of some outputs can fail, every sprite
    whose output opens gets its pixmap, also after the output of an earlier
    sprite failed to open; and the decode returns success exactly when the
    output of every sprite that is not empty opens. *)
Theorem decode_spr_best_effort (filename : string)
    (pal_data : list palette_entry) (w : world) (count : byte) (l : list sprite) :
  String.length filename <= 26 ->
  (0 < (sys_open E filename w).1)%Z ->
  files w !! filename = Some (archive count l) ->
  Z.to_nat (byte_val count) = length l ->
  Forall sprite_ok l ->
  ((decode_spr E filename pal_data w).1 = true
   <-> forall j s, l !! j = Some s -> s_empty s = false ->
         can (ppm_name filename (Z.of_nat j)) = true) /\
  forall j s, l !! j = Some s -> s_empty s = false ->
    can (ppm_name filename (Z.of_nat j)) = true ->
    files (decode_spr E filename pal_data w).2 !! ppm_name filename (Z.of_nat j)
    = Some (bytes_of (ppm_text pal_data (s_pixels s) (s_width s) (s_height s))).
Proof.
  intros Hname Hfd Hfile Hcount Hok.
  pose proof (byte_val_range count) as Hc.
  rewrite (decode_spr_archive_loop E filename pal_data w count l
             mem_ok Hfd Hfile Hcount).
  set (w2 := set_fdt _ _).
  destruct (sprite_loop_best_effort (sys_open E filename w).1 filename pal_data
              count l w2 Hname Hok ltac:(lia)) with (k := length l)
    as [Hst Hfiles].
  - subst w2. cbn. by rewrite lookup_insert_eq.
  - done.
  - done.
  - split.
    + rewrite Hst. split.
      * intros H j s Hj. apply H; [|done]. by apply lookup_lt_Some in Hj.
      * intros H j s _. apply H.
    + intros j s Hj. apply Hfiles; [|done]. by apply lookup_lt_Some in Hj.
Qed.
End BestEffort.

Lemma decode_spr_best_effort_witness :
  (decode_spr (E_deny "city.spr_000.ppm") "city.spr" gray_palette
     (world_with "city.spr" (archive x02 two_sprites))).1 = false /\
  files (decode_spr (E_deny "city.spr_000.ppm") "city.spr" gray_palette
           (world_with "city.spr" (archive x02 two_sprites))).2
    !! ppm_name "city.spr" 1
  = Some (bytes_of (ppm_text gray_palette [x02] x01 x01)).
Proof.
  destruct (decode_spr_best_effort (E_deny "city.spr_000.ppm")
              (fun p => negb (String.eqb p "city.spr_000.ppm"))
              ltac:(done) ltac:(done) ltac:(done)
              "city.spr" gray_palette
              (world_with "city.spr" (archive x02 two_sprites)) x02 two_sprites)
    as [Hst Hfiles].
  - vm_compute; lia.
  - vm_compute; reflexivity.
  - vm_compute; reflexivity.
  - vm_compute; reflexivity.
  - exact two_sprites_ok.
  - split.
    + apply not_true_is_false. intros Hd.
      pose proof (proj1 Hst Hd 0 (Sprite x01 x01 [x01]) eq_refl eq_refl) as H0.
      vm_compute in H0. discriminate.
    + exact (Hfiles 1 (Sprite x01 x01 [x02]) eq_refl eq_refl eq_refl).
Defined.

(** ** The names of the outputs, by the length of the archive name *)

Lemma string_take_app_ge (k : nat) (s t : string) :
  k <= String.length s -> string_take k (s +:+ t) = string_take k s.
Proof.
  revert k. induction s as [|c s IH]; intros [|k] Hk; cbn in *; try done; try lia.
  rewrite string_app_cons. cbn. rewrite IH; [done|lia].
Qed.

(** X12: under an archive name of at most 26 characters the sprites of
    different indices get different output names, none of which is the name
    of the archive; under a name of at most 22 characters the output name is
    the whole of name, underscore, three digits, .ppm. *)
Theorem ppm_names_distinct (base : string) (i j : Z) :
  String.length base <= 26 ->
  (0 <= i < 256)%Z -> (0 <= j < 256)%Z -> i <> j ->
  ppm_name base i <> ppm_name base j /\
  ppm_name base i <> base /\
  (String.length base <= 22 ->
   ppm_name base i = base +:+ "_" +:+ fmt_03d i +:+ ".ppm").
Proof.
  intros Hl Hi Hj Hij. split; [|split].
  - intros Heq. by apply ppm_name_inj in Heq.
  - apply ppm_name_ne_base; [done|lia].
  - intros H22. rewrite ppm_name_take. fold (ppm_full_name base i).
    apply string_take_all. rewrite ppm_full_name_length by done. lia.
Qed.

Lemma ppm_names_distinct_witness :
  ppm_name "city.spr" 7 <> ppm_name "city.spr" 8 /\
  ppm_name "city.spr" 7 = "city.spr" +:+ "_" +:+ fmt_03d 7 +:+ ".ppm".
Proof.
  destruct (ppm_names_distinct "city.spr" 7 8) as (H1 & _ & H2);
    [vm_compute; lia|lia|lia|lia|].
  split; [exact H1|]. apply H2. vm_compute; lia.
Defined.

(** X13: under an archive name of 30 characters or more, the output name
    of every sprite is the first 30 characters of the archive name: all the
    sprites share one output file, and under a name of exactly 30 characters
    that file is the archive itself. *)
Theorem ppm_name_long_base (base : string) (i j : Z) :
  30 <= String.length base ->
  ppm_name base i = string_take 30 base /\
  ppm_name base i = ppm_name base j /\
  (String.length base = 30 -> ppm_name base i = base).
Proof.
  intros Hl.
  assert (Hcut : forall k, ppm_name base k = string_take 30 base).
  { intros k. rewrite ppm_name_take. unfold ppm_full_name.
    by apply string_take_app_ge. }
  split; [apply Hcut|]. split; [by rewrite !Hcut|].
  intros H30. rewrite Hcut. apply string_take_all. lia.
Qed.

Lemma ppm_name_long_base_witness :
  ppm_name "quarantine_sprites_level_1.spr" 5 = "quarantine_sprites_level_1.spr".
Proof.
  destruct (ppm_name_long_base "quarantine_sprites_level_1.spr" 5 5) as (_ & _ & H).
  - vm_compute; lia.
  - apply H. reflexivity.
Defined.

(** X14: called for an archive whose name has exactly 30 characters,
    [write_ppm] opens the archive itself for writing: when the file opens
    and the writes succeed, the archive is replaced by the pixmap of the
    sprite. *)
Theorem write_ppm_overwrites_archive (E : env) (filename : string) (i : Z)
    (palette : list palette_entry) (data : list byte) (wd ht : byte) (w : world) :
  String.length filename = 30 ->
  fopen_ok E w filename = true ->
  (forall w' p, fprintf_ok E w' p = true) ->
  length data = Z.to_nat (byte_val wd * byte_val ht) ->
  (write_ppm E filename i palette data wd ht w).1 = true /\
  files (write_ppm E filename i palette data wd ht w).2 !! filename
  = Some (bytes_of (ppm_text palette data wd ht)).
Proof.
  intros Hl Hopen Hwrite Hlen.
  assert (Hname : ppm_name filename i = filename).
  { rewrite ppm_name_take. unfold ppm_full_name.
    rewrite string_take_app_ge by lia. apply string_take_all. lia. }
  split.
  - by rewrite write_ppm_status, Hname.
  - pose proof (write_ppm_opened E filename i palette data wd ht w) as H.
    rewrite Hname in H. by apply H.
Qed.

Lemma write_ppm_overwrites_archive_witness :
  files (write_ppm E_ok "quarantine_sprites_level_1.spr" 0 gray_palette [x07]
           x01 x01
           (world_with "quarantine_sprites_level_1.spr" [x01; x01; x01; x07])).2
    !! "quarantine_sprites_level_1.spr"
  = Some (bytes_of (ppm_text gray_palette [x07] x01 x01)).
Proof.
  refine (proj2 (write_ppm_overwrites_archive E_ok
                   "quarantine_sprites_level_1.spr" 0 gray_palette [x07] x01 x01
                   (world_with "quarantine_sprites_level_1.spr"
                      [x01; x01; x01; x07]) _ _ _ _)).
  - reflexivity.
  - reflexivity.
  - intros; reflexivity.
  - reflexivity.
Defined.

(** ** The pixmap keeps the colours *)

Lemma bytes_of_inj (s t : string) : bytes_of s = bytes_of t -> s = t.
Proof.
  unfold bytes_of. intros H.
  by rewrite <- (string_of_list_byte_of_string s),
             <- (string_of_list_byte_of_string t), H.
Qed.

(** X15: when the output opens and the writes succeed, the file
    [write_ppm] leaves determines the colours of the pixels, in order: two
    pixel buffers of one sprite size that give the same file have the same
    colours, pixel by pixel. *)
Theorem write_ppm_keeps_colours (E : env) (base : string) (i : Z)
    (palette : list palette_entry) (data1 data2 : list byte) (wd ht : byte)
    (w1 w2 : world) :
  (forall w p, fopen_ok E w p = true) ->
  (forall w p, fprintf_ok E w p = true) ->
  length data1 = Z.to_nat (byte_val wd * byte_val ht) ->
  length data2 = Z.to_nat (byte_val wd * byte_val ht) ->
  files (write_ppm E base i palette data1 wd ht w1).2 !! ppm_name base i
  = files (write_ppm E base i palette data2 wd ht w2).2 !! ppm_name base i ->
  map (color_of palette) data1 = map (color_of palette) data2.
Proof.
  intros Hopen Hwrite H1 H2.
  rewrite !write_ppm_opened by done.
  intros Heq.
  assert (Hb : bytes_of (ppm_text palette data1 wd ht)
               = bytes_of (ppm_text palette data2 wd ht)) by congruence.
  by apply bytes_of_inj, ppm_text_inj in Hb.
Qed.

Lemma write_ppm_keeps_colours_witness :
  map (color_of gray_palette) [x01; x02] = map (color_of gray_palette) [x01; x02].
Proof.
  apply (write_ppm_keeps_colours E_ok "city.spr" 0 gray_palette
           [x01; x02] [x01; x02] x02 x01
           (world_with "city.spr" []) (world_with "city.spr" [x00])).
  - intros; reflexivity.
  - intros; reflexivity.
  - reflexivity.
  - reflexivity.
  - vm_compute; reflexivity.
Defined.

(** ** main *)

(** [open] looks at the files and at the table of descriptors only, and
    gives every existing file the same descriptor. *)
Lemma sys_open_congr (E : env) (path : string) (w1 w2 : world) :
  files w1 = files w2 -> fdt w1 = fdt w2 ->
  (sys_open E path w1).1 = (sys_open E path w2).1.
Proof.
  intros Hf Ht. unfold sys_open. rewrite Hf, Ht.
  destruct (files w2 !! path); [|done]. by destruct (lowest_free _ _).
Qed.

Lemma sys_open_same (E : env) (p1 p2 : string) (w : world) (d1 d2 : list byte) :
  files w !! p1 = Some d1 -> files w !! p2 = Some d2 ->
  (sys_open E p1 w).1 = (sys_open E p2 w).1.
Proof.
  intros H1 H2. unfold sys_open. rewrite H1, H2.
  by destruct (lowest_free _ _).
Qed.

(** With fewer than two arguments after the program name, [main]
    prints the usage line on stdout and returns 0, not a failure code; it
    opens and creates no file and prints nothing on stderr. *)
Theorem main_usage (E : env) (argv : list string) (w : world) :
  length argv < 3 ->
  (main E argv w).1 = 0%Z /\
  out (main E argv w).2
  = out w ++ ["Usage: " +:+ nth 0 argv "" +:+ " <palette_file> <spr_file>" +:+ nl] /\
  files (main E argv w).2 = files w /\
  fdt (main E argv w).2 = fdt w /\
  err (main E argv w).2 = err w.
Proof.
  intros Hlen. destruct argv as [|a [|b [|c rest]]]; cbn in Hlen; try lia; done.
Qed.

Lemma main_usage_witness :
  (main E_ok ["decode"; "q.img"] (world_with "q.img" gray_img)).1 = 0%Z.
Proof.
  refine (proj1 (main_usage E_ok ["decode"; "q.img"]
                   (world_with "q.img" gray_img) _)).
  cbn; lia.
Defined.

(** X16: when the palette file is missing or holds fewer than 781 bytes,
    [main] returns -1 and does not decode the archive: no file is created or
    changed, and stdout holds the first line of [main] only. *)
Theorem main_palette_failure (E : env) (prog palette_file spr_file : string)
    (more : list string) (w : world) :
  (files w !! palette_file = None \/
   exists data, files w !! palette_file = Some data /\ length data < 781) ->
  (main E (prog :: palette_file :: spr_file :: more) w).1 = (-1)%Z /\
  files (main E (prog :: palette_file :: spr_file :: more) w).2 = files w /\
  out (main E (prog :: palette_file :: spr_file :: more) w).2
  = out w ++ ["Reading palette from " +:+ palette_file +:+ " and sprites from "
              +:+ spr_file +:+ "..." +:+ nl].
Proof.
  intros Hpal. unfold main. cbv beta iota zeta.
  set (w0 := printf _ w).
  assert (Hf0 : files w0 = files w) by done.
  assert (Ho0 : out w0 = out w ++ ["Reading palette from " +:+ palette_file
                                   +:+ " and sprites from " +:+ spr_file
                                   +:+ "..." +:+ nl]) by done.
  clearbody w0.
  set (buf := replicate (Z.to_nat PALETTE_SIZE_BYTES) x00).
  destruct (Z.ltb_spec 0 (sys_open E palette_file w0).1) as [Hfd|Hfd].
  - destruct (sys_open_inv E palette_file w0) as ([data Hdata] & _); [lia|].
    rewrite (read_palette_opened E palette_file buf w0 data Hdata Hfd).
    cbn zeta.
    assert (Hshort : length data < 781).
    { rewrite Hf0 in Hdata. destruct Hpal as [Hnone|(d & Hd & Hlen)]; congruence. }
    rewrite (proj2 (Z.eqb_neq _ _))
      by (rewrite length_take, length_drop; lia).
    cbn. by rewrite Hf0, Ho0.
  - rewrite (read_palette_not_opened E palette_file buf w0 Hfd).
    destruct (sys_open_files E palette_file w0) as (Hf & _ & Ho & _).
    cbn. by rewrite Hf, Ho, Hf0, Ho0.
Qed.

Lemma main_palette_failure_witness :
  (main E_ok ["decode"; "q.img"; "city.spr"]
     (world_with "city.spr" (archive x02 two_sprites))).1 = (-1)%Z.
Proof.
  refine (proj1 (main_palette_failure E_ok "decode" "q.img" "city.spr" []
                   (world_with "city.spr" (archive x02 two_sprites)) _)).
  left. reflexivity.
Defined.

(** What [main] passes on once the palette is read. *)
Lemma main_palette_read (E : env) (prog palette_file spr_file : string)
    (more : list string) (w : world) (pdata : list byte) :
  files w !! palette_file = Some pdata ->
  781 <= length pdata ->
  (0 < (sys_open E palette_file w).1)%Z ->
  main E (prog :: palette_file :: spr_file :: more) w
  = ((if (decode_spr E spr_file (cast_palette (take 768 (drop 13 pdata)))
            (printf ("Reading palette from " +:+ palette_file
                     +:+ " and sprites from " +:+ spr_file +:+ "..." +:+ nl) w)).1
      then 0 else -2)%Z,
     (decode_spr E spr_file (cast_palette (take 768 (drop 13 pdata)))
        (printf ("Reading palette from " +:+ palette_file
                 +:+ " and sprites from " +:+ spr_file +:+ "..." +:+ nl) w)).2).
Proof.
  intros Hpal Hlen Hfd. unfold main. cbv beta iota zeta.
  set (w0 := printf _ w).
  assert (Hfd0 : (0 < (sys_open E palette_file w0).1)%Z)
    by (by rewrite (sys_open_congr E palette_file w0 w)).
  rewrite (read_palette_opened E palette_file _ w0 pdata Hpal Hfd0). cbn zeta.
  assert (Hgot : length (take 768 (drop 13 pdata)) = 768)
    by (rewrite length_take, length_drop; lia).
  rewrite Hgot. change (Z.of_nat 768 =? 768)%Z with true. cbv beta iota.
  change (Z.to_nat PALETTE_SIZE_BYTES) with 768.
  rewrite fill_full by done.
  replace (set_fdt (fdt w0) w0) with w0 by (by destruct w0).
  by destruct (decode_spr _ _ _ _) as [[] w1].
Qed.

(** X17: when the palette is read and the archive is missing, [main]
    returns -2, a code of its own; no file is created or changed, the
    error names the archive, and the palette descriptor is closed again. *)
Theorem main_archive_failure (E : env) (prog palette_file spr_file : string)
    (more : list string) (w : world) (pdata : list byte) :
  files w !! palette_file = Some pdata ->
  781 <= length pdata ->
  (0 < (sys_open E palette_file w).1)%Z ->
  files w !! spr_file = None ->
  (main E (prog :: palette_file :: spr_file :: more) w).1 = (-2)%Z /\
  files (main E (prog :: palette_file :: spr_file :: more) w).2 = files w /\
  fdt (main E (prog :: palette_file :: spr_file :: more) w).2 = fdt w /\
  err (main E (prog :: palette_file :: spr_file :: more) w).2
  = err w ++ [msg_open spr_file].
Proof.
  intros Hpal Hlen Hfd Hspr.
  rewrite (main_palette_read E prog palette_file spr_file more w pdata Hpal Hlen Hfd).
  unfold decode_spr, sys_open. cbn [files printf]. by rewrite Hspr.
Qed.

Lemma main_archive_failure_witness :
  (main E_ok ["decode"; "q.img"; "city.spr"] (world_with "q.img" gray_img)).1
  = (-2)%Z.
Proof.
  refine (proj1 (main_archive_failure E_ok "decode" "q.img" "city.spr" []
                   (world_with "q.img" gray_img) gray_img _ _ _ _)).
  - reflexivity.
  - vm_compute; lia.
  - vm_compute; reflexivity.
  - reflexivity.
Defined.

(** X18: the whole program.  With a palette file of at least 781 bytes and
    a well-formed archive under a name of at most 26 characters, in an
    environment where nothing fails, [main] returns 0 and the output file of
    every sprite that is not empty holds its pixels, in order, in the colours
    that the bytes of the palette file from offset 13 on give them. *)
Theorem main_end_to_end (E : env) (prog palette_file spr_file : string)
    (more : list string) (w : world) (pdata : list byte) (count : byte)
    (l : list sprite) :
  nominal E ->
  files w !! palette_file = Some pdata ->
  781 <= length pdata ->
  (0 < (sys_open E palette_file w).1)%Z ->
  String.length spr_file <= 26 ->
  files w !! spr_file = Some (archive count l) ->
  Z.to_nat (byte_val count) = length l ->
  Forall sprite_ok l ->
  (main E (prog :: palette_file :: spr_file :: more) w).1 = 0%Z /\
  forall j s, l !! j = Some s -> s_empty s = false ->
    files (main E (prog :: palette_file :: spr_file :: more) w).2
      !! ppm_name spr_file (Z.of_nat j)
    = Some (bytes_of (ppm_text (cast_palette (take 768 (drop 13 pdata)))
                        (s_pixels s) (s_width s) (s_height s))).
Proof.
  intros Hnom Hpal Hlen Hfd Hname Hspr Hcount Hok.
  rewrite (main_palette_read E prog palette_file spr_file more w pdata Hpal Hlen Hfd).
  set (w0 := printf _ w). set (pal := cast_palette _).
  assert (Hspr0 : files w0 !! spr_file = Some (archive count l)) by done.
  assert (Hfd0 : (0 < (sys_open E spr_file w0).1)%Z).
  { rewrite (sys_open_congr E spr_file w0 w) by done.
    by rewrite <- (sys_open_same E palette_file spr_file w _ _ Hpal Hspr). }
  pose proof (byte_val_range count) as Hc.
  rewrite (decode_spr_archive_loop E spr_file pal w0 count l
             (proj1 Hnom) Hfd0 Hspr0 Hcount).
  set (w2 := set_fdt _ _).
  destruct (sprite_loop_roundtrip E (sys_open E spr_file w0).1 spr_file pal
              count l w2 Hnom Hname Hok ltac:(lia)) with (k := length l)
    as [Hst Hfiles].
  - subst w2. cbn. by rewrite lookup_insert_eq.
  - done.
  - done.
  - cbn [fst snd]. rewrite Hst. split; [done|].
    intros j s Hj Hne. apply Hfiles; [|done|done].
    by apply lookup_lt_Some in Hj.
Qed.

Lemma main_end_to_end_witness :
  (main E_ok ["decode"; "q.img"; "city.spr"]
     (world_with_two "q.img" gray_img "city.spr" (archive x02 two_sprites))).1
  = 0%Z /\
  files (main E_ok ["decode"; "q.img"; "city.spr"]
           (world_with_two "q.img" gray_img "city.spr"
              (archive x02 two_sprites))).2 !! ppm_name "city.spr" 1
  = Some (bytes_of (ppm_text gray_palette [x02] x01 x01)).
Proof.
  destruct (main_end_to_end E_ok "decode" "q.img" "city.spr" []
              (world_with_two "q.img" gray_img "city.spr" (archive x02 two_sprites))
              gray_img x02 two_sprites nominal_E_ok) as [Hst Hfiles].
  - reflexivity.
  - vm_compute; lia.
  - vm_compute; reflexivity.
  - vm_compute; lia.
  - reflexivity.
  - reflexivity.
  - exact two_sprites_ok.
  - split; [exact Hst|].
    exact (Hfiles 1 (Sprite x01 x01 [x02]) eq_refl eq_refl).
Defined.
